(** * chatserver: the relay gateway and its tool catalog (main.py)

    A shallow embedding of [main.py]: the chat relay ([chat],
    [call_llm_with_tools]), the health check, the two tools and the direct
    tool invoker ([execute_tool]).

    Python objects are an inductive type, exceptions are data, and the
    endpoints run in a state-and-exception monad over the part of the world
    they touch: the two mutable module-level objects ([TOOLS],
    [TOOL_FUNCTIONS]), the downstream LLM server, the clock, and a trace of
    what was sent and which tool bodies ran.

    Strings are byte strings; the program only compares them, tests them
    character by character against ASCII characters, or passes them on
    whole, so the difference with Python's code points is not observable
    in what is stated below.  Printing and logging are left out, except
    for the slice [assistant_message[:100]] that [chat] takes for its log
    line, which can raise.  Requests are served one after the other. *)

From stdpp Require Import gmap strings list pretty.
From Stdlib Require Import ZArith Ascii String.

Set Warnings "-register-all".

Open Scope string_scope.
Open Scope list_scope.
Open Scope Z_scope.

(** ** Python objects *)

Inductive unop := UPos | UNeg.

Inductive binop := Add | Sub | Mul | Div | FloorDiv | Mod | Pow.

(** What the interpreter reports when arithmetic on C doubles fails. *)
Inductive arith_error := DividedByZero | OutOfRange | Unsupported.

Section Values.

(** [X] stands for the float and complex objects of the interpreter: what
    it computes with C doubles.  It is kept abstract, see [Platform]. *)
Variable X : Type.

(** The objects the program handles: decoded JSON, the dictionaries it
    builds, and what [eval] can return on the calculator's alphabet. *)
Inductive value :=
| VNone
| VBool (b : bool)
| VInt (z : Z)
| VInexact (x : X)
| VStr (s : string)
| VList (l : list value)
| VDict (d : list (string * value))
| VTuple0
| VEllipsis.

(** The objects an expression over [0123456789+-*/()%. ] can denote:
    integers, floats and complex numbers, the empty tuple [()] and
    [...]. *)
Inductive evalue :=
| EInt (z : Z)
| EInexact (x : X)
| ETuple0
| EEllipsis.

Definition to_value (v : evalue) : value :=
  match v with
  | EInt z => VInt z
  | EInexact x => VInexact x
  | ETuple0 => VTuple0
  | EEllipsis => VEllipsis
  end.

(** An HTTP response of the downstream server, as [httpx] hands it over:
    its status line, and its body decoded by [response.json()] when that
    succeeds, or the text of the decoding error. *)
Inductive json_body :=
| ValidJson (v : value)
| InvalidJson (msg : string).

Record response := Response {
  status_code : Z;
  reason_phrase : string;
  body : json_body
}.

(** The situations in which the interpreter or a library raises.  The
    exception class of each is fixed ([failure_class]); the text of the
    message is the platform's ([wording]). *)
Inductive failure :=
(* eval *)
| InvalidSyntax
| DivisionByZero (op : binop) (a b : Z)
| InexactFailed (err : arith_error) (op : binop) (x y : X)
| IntTooLarge (z : Z)
| QuotientTooLarge (a b : Z)
| RepeatCountTooLarge (n : Z)
| UnsupportedOperands (op : binop) (l r : evalue)
| BadUnaryOperand (op : unop) (v : evalue)
| NotCallable (f : evalue)
| StarArgNotIterable (a : evalue)
| DoubleStarArgNotMapping (a : evalue)
| EvalArgNotString (v : value)
(* iteration, hashing, subscripts *)
| NotIterable (v : value)
| Unhashable (v : value)
| NotSubscriptable (v : value)
| BadIndexType (container key : value)
| MissingKey (key : value)
| IndexOutOfRange (container : value)
| DictSliced (d : value)
(* calls and libraries *)
| UnexpectedKeyword (fn key : string)
| MissingArgument (fn arg : string)
| NotAValidString (v : value)
| BadStatus (r : response).

End Values.

Arguments VNone {X}.
Arguments VBool {X} b.
Arguments VInt {X} z.
Arguments VInexact {X} x.
Arguments VStr {X} s.
Arguments VList {X} l.
Arguments VDict {X} d.
Arguments VTuple0 {X}.
Arguments VEllipsis {X}.
Arguments EInt {X} z.
Arguments EInexact {X} x.
Arguments ETuple0 {X}.
Arguments EEllipsis {X}.
Arguments to_value {X} v.
Arguments ValidJson {X} v.
Arguments InvalidJson {X} msg.
Arguments Response {X} _ _ _.
Arguments status_code {X} r.
Arguments reason_phrase {X} r.
Arguments body {X} r.
Arguments InvalidSyntax {X}.
Arguments DivisionByZero {X} op a b.
Arguments InexactFailed {X} err op x y.
Arguments IntTooLarge {X} z.
Arguments QuotientTooLarge {X} a b.
Arguments RepeatCountTooLarge {X} n.
Arguments UnsupportedOperands {X} op l r.
Arguments BadUnaryOperand {X} op v.
Arguments NotCallable {X} f.
Arguments StarArgNotIterable {X} a.
Arguments DoubleStarArgNotMapping {X} a.
Arguments EvalArgNotString {X} v.
Arguments NotIterable {X} v.
Arguments Unhashable {X} v.
Arguments NotSubscriptable {X} v.
Arguments BadIndexType {X} container key.
Arguments MissingKey {X} key.
Arguments IndexOutOfRange {X} container.
Arguments DictSliced {X} d.
Arguments UnexpectedKeyword {X} fn key.
Arguments MissingArgument {X} fn arg.
Arguments NotAValidString {X} v.
Arguments BadStatus {X} r.

(** ** The platform

    What the model takes from the interpreter it runs on: arithmetic on
    doubles (IEEE 754 and the C library's [pow], complex numbers included)
    and the wording of error messages, which changes between CPython
    releases.  Integers are Python's own, unbounded, and are modelled
    exactly. *)
Class Platform := {
  inexact : Type;
  (** the value of a float literal such as [0.7], given its text *)
  inexact_of_literal : string -> inexact;
  (** [float(n)]; [None] when [n] is too large for a double *)
  inexact_of_int : Z -> option inexact;
  (** [a / b] on integers, [b] not zero; [None] when the quotient is too
      large for a double *)
  int_true_divide : Z -> Z -> option inexact;
  (** a binary operator on two floats or complex numbers *)
  inexact_binop : binop -> inexact -> inexact -> inexact + arith_error;
  (** [-x] *)
  inexact_neg : inexact -> inexact;
  (** [str(e)] of the exception raised in a given situation *)
  wording : failure inexact -> string
}.

(** ** Exceptions *)

Inductive exn_class :=
| SyntaxError
| ZeroDivisionError
| OverflowError
| TypeError
| KeyError
| IndexError
| ValueError
| ValidationError
| HTTPStatusError
| TransportError
| KeyboardInterrupt
| SystemExit.

(** [issubclass(c, Exception)]: everything but the two classes that derive
    from [BaseException] directly. *)
Definition is_Exception (c : exn_class) : bool :=
  match c with
  | KeyboardInterrupt | SystemExit => false
  | _ => true
  end.

(** [issubclass(c, httpx.HTTPError)]. *)
Definition is_HTTPError (c : exn_class) : bool :=
  match c with
  | HTTPStatusError | TransportError => true
  | _ => false
  end.

(** An exception object: one raised by the interpreter or a library, with
    its class and message, or FastAPI's [HTTPException]. *)
Inductive exn :=
| PyExn (c : exn_class) (msg : string)
| HTTPException (status : Z) (detail : string).

Definition isinstance_Exception (e : exn) : bool :=
  match e with
  | PyExn c _ => is_Exception c
  | HTTPException _ _ => true
  end.

Definition isinstance_HTTPError (e : exn) : bool :=
  match e with
  | PyExn c _ => is_HTTPError c
  | HTTPException _ _ => false
  end.

(** [str(e)]. *)
Definition str (e : exn) : string :=
  match e with
  | PyExn _ msg => msg
  | HTTPException status detail => pretty status +:+ ": " +:+ detail
  end.

(** The outcome of running a piece of Python: a value or a raised
    exception. *)
Inductive result (A : Type) :=
| Ret (a : A)
| Raise (e : exn).

Arguments Ret {A} a.
Arguments Raise {A} e.

(** A computation that can only raise subclasses of [Exception]. *)
Definition ordinary {A} (r : result A) : Prop :=
  forall e, r = Raise e -> isinstance_Exception e = true.

Definition bind {A B} (m : result A) (k : A -> result B) : result B :=
  match m with
  | Ret a => k a
  | Raise e => Raise e
  end.

Notation "'let!' x ':=' m 'in' k" := (bind m (fun x => k))
  (at level 10, x pattern, m at level 100, k at level 200).

Definition failure_class {X} (f : failure X) : exn_class :=
  match f with
  | InvalidSyntax => SyntaxError
  | DivisionByZero _ _ _ => ZeroDivisionError
  | InexactFailed DividedByZero _ _ _ => ZeroDivisionError
  | InexactFailed OutOfRange _ _ _ => OverflowError
  | InexactFailed Unsupported _ _ _ => TypeError
  | IntTooLarge _ | QuotientTooLarge _ _ | RepeatCountTooLarge _ => OverflowError
  | UnsupportedOperands _ _ _ | BadUnaryOperand _ _ | NotCallable _
  | StarArgNotIterable _ | DoubleStarArgNotMapping _ | EvalArgNotString _
  | NotIterable _ | Unhashable _ | NotSubscriptable _ | BadIndexType _ _
  | DictSliced _ | UnexpectedKeyword _ _ | MissingArgument _ _ => TypeError
  | MissingKey _ => KeyError
  | IndexOutOfRange _ => IndexError
  | NotAValidString _ => ValidationError
  | BadStatus _ => HTTPStatusError
  end.

(** ** [eval] on the calculator's alphabet

    [calculator] hands a string to Python's [eval] only when every
    character is one of [0123456789+-*/()%. ].  On such a string the
    tokens are numbers, the operators [+ - * / % ** //], parentheses, the
    dot and [...]; the grammar is that of Python's arithmetic expressions:
<<
    sum     ::= sum ('+'|'-') term | term
    term    ::= term ('*'|'/'|'//'|'%') factor | factor
    factor  ::= ('+'|'-') factor | power
    power   ::= primary ['**' factor]
    primary ::= primary '(' [['*'|'**'] sum] ')' | atom
    atom    ::= NUMBER | '...' | '(' ')' | '(' sum ')'
>>
    The limits an interpreter puts on nesting depth, on the size of
    literals and on memory are not modelled; exceeding them raises
    subclasses of [Exception] too. *)

Inductive literal :=
| LInt (z : Z)
| LFloat (text : string).

Inductive token :=
| TNumber (n : literal)
| TPlus | TMinus | TStar | TSlash | TPercent
| TDoubleStar | TDoubleSlash
| TLParen | TRParen
| TDot | TEllipsis.

Inductive arg_prefix := Plain | Star | DoubleStar.

Inductive expr :=
| ENum (n : literal)
| EDots
| EEmptyTuple
| EUnary (op : unop) (e : expr)
| EBinary (op : binop) (l r : expr)
| ECallEmpty (f : expr)
| ECall (f : expr) (p : arg_prefix) (a : expr).

Definition is_digit (c : ascii) : bool :=
  (48 <=? nat_of_ascii c)%nat && (nat_of_ascii c <=? 57)%nat.

Definition digit_value (c : ascii) : Z := Z.of_nat (nat_of_ascii c) - 48.

(** The value of a run of decimal digits. *)
Fixpoint int_of_digits (acc : Z) (ds : string) : Z :=
  match ds with
  | EmptyString => acc
  | String c ds' => int_of_digits (10 * acc + digit_value c) ds'
  end.

Fixpoint all_zeros (ds : string) : bool :=
  match ds with
  | EmptyString => true
  | String c ds' => Ascii.eqb c "0" && all_zeros ds'
  end.

(** [012] is not a decimal integer literal; [0] and [00] are. *)
Definition leading_zeros (ds : string) : bool :=
  match ds with
  | String "0" ds' => negb (all_zeros ds')
  | _ => false
  end.

Definition snoc (s : string) (c : ascii) : string := s +:+ String c "".

Section Interpreter.

Context {P : Platform}.

(** Raise the exception of a situation. *)
Definition throw {A} (f : failure inexact) : result A :=
  Raise (PyExn (failure_class f) (wording f)).

(** *** Tokens

    The tokenizer reads one character at a time; its state is the token
    it is in the middle of. *)
Inductive lex_state :=
| LxStart
| LxInt (ds : string)
| LxFrac (text : string)
| LxDot
| LxDotDot
| LxStar
| LxSlash.

(** The tokens a state stands for when the token ends. *)
Definition flush (st : lex_state) : result (list token) :=
  match st with
  | LxStart => Ret []
  | LxInt ds =>
      if leading_zeros ds then throw InvalidSyntax
      else Ret [TNumber (LInt (int_of_digits 0 ds))]
  | LxFrac text => Ret [TNumber (LFloat text)]
  | LxDot => Ret [TDot]
  | LxDotDot => Ret [TDot; TDot]
  | LxStar => Ret [TStar]
  | LxSlash => Ret [TSlash]
  end.

(** A character read between two tokens.  A character outside the
    calculator's alphabet is reported as invalid syntax: [calculator]
    never passes one on, and this model says nothing of what Python
    makes of it. *)
Definition start (c : ascii) : result (list token * lex_state) :=
  if is_digit c then Ret ([], LxInt (String c ""))
  else match c with
       | " " => Ret ([], LxStart)
       | "." => Ret ([], LxDot)
       | "*" => Ret ([], LxStar)
       | "/" => Ret ([], LxSlash)
       | "+" => Ret ([TPlus], LxStart)
       | "-" => Ret ([TMinus], LxStart)
       | "%" => Ret ([TPercent], LxStart)
       | "(" => Ret ([TLParen], LxStart)
       | ")" => Ret ([TRParen], LxStart)
       | _ => throw InvalidSyntax
       end%char.

(** One character: it extends the current token, or ends it and starts
    the next. *)
Definition lex_step (st : lex_state) (c : ascii)
  : result (list token * lex_state) :=
  let continue :=
    match st with
    | LxInt ds =>
        if is_digit c then Some ([], LxInt (snoc ds c))
        else if Ascii.eqb c "." then Some ([], LxFrac (snoc ds c))
        else None
    | LxFrac text =>
        if is_digit c then Some ([], LxFrac (snoc text c)) else None
    | LxDot =>
        if is_digit c then Some ([], LxFrac (snoc "." c))
        else if Ascii.eqb c "." then Some ([], LxDotDot)
        else None
    | LxDotDot =>
        if is_digit c then Some ([TDot], LxFrac (snoc "." c))
        else if Ascii.eqb c "." then Some ([TEllipsis], LxStart)
        else None
    | LxStar =>
        if Ascii.eqb c "*" then Some ([TDoubleStar], LxStart) else None
    | LxSlash =>
        if Ascii.eqb c "/" then Some ([TDoubleSlash], LxStart) else None
    | LxStart => None
    end in
  match continue with
  | Some r => Ret r
  | None =>
      let! done := flush st in
      let! (ts, st') := start c in
      Ret (done ++ ts, st')
  end.

Fixpoint lex (st : lex_state) (s : string) : result (list token) :=
  match s with
  | EmptyString => flush st
  | String c s' =>
      let! (ts, st') := lex_step st c in
      let! rest := lex st' s' in
      Ret (ts ++ rest)
  end.

Definition tokenize (s : string) : result (list token) := lex LxStart s.

(** *** Syntax

    An operator-precedence parser: [stack] holds what has been read and
    still waits for its right-hand side, innermost first; [operand] is
    the expression just completed, if any. *)
Inductive frame :=
| FUnary (op : unop)
| FBinary (op : binop) (l : expr)
| FGroup
| FCall (f : expr) (p : arg_prefix).

Definition prec (op : binop) : nat :=
  match op with
  | Add | Sub => 1
  | Mul | Div | FloorDiv | Mod => 2
  | Pow => 4
  end.

Definition unary_prec : nat := 3.

(** The level down to which pending operators take [e] as their operand
    before [op] does: [**] associates to the right, the others to the
    left. *)
Definition reduce_level (op : binop) : nat :=
  match op with
  | Pow => 5
  | _ => prec op
  end.

(** Close the pending operators that bind at least as tightly as level
    [p] over the operand [e]. *)
Fixpoint reduce (p : nat) (stack : list frame) (e : expr)
  : list frame * expr :=
  match stack with
  | FUnary op :: stack' =>
      if (p <=? unary_prec)%nat then reduce p stack' (EUnary op e)
      else (stack, e)
  | FBinary op l :: stack' =>
      if (p <=? prec op)%nat then reduce p stack' (EBinary op l e)
      else (stack, e)
  | _ => (stack, e)
  end.

Definition parser_state : Type := list frame * option expr.

Definition binop_of_token (t : token) : option binop :=
  match t with
  | TPlus => Some Add
  | TMinus => Some Sub
  | TStar => Some Mul
  | TSlash => Some Div
  | TDoubleSlash => Some FloorDiv
  | TPercent => Some Mod
  | TDoubleStar => Some Pow
  | _ => None
  end.

(** A token read where an operand is expected. *)
Definition shift_prefix (stack : list frame) (t : token)
  : result parser_state :=
  match t, stack with
  | TNumber n, _ => Ret (stack, Some (ENum n))
  | TEllipsis, _ => Ret (stack, Some EDots)
  | TPlus, _ => Ret (FUnary UPos :: stack, None)
  | TMinus, _ => Ret (FUnary UNeg :: stack, None)
  | TLParen, _ => Ret (FGroup :: stack, None)
  | TRParen, FGroup :: stack' => Ret (stack', Some EEmptyTuple)
  | TRParen, FCall f Plain :: stack' => Ret (stack', Some (ECallEmpty f))
  | TStar, FCall f Plain :: stack' => Ret (FCall f Star :: stack', None)
  | TDoubleStar, FCall f Plain :: stack' =>
      Ret (FCall f DoubleStar :: stack', None)
  | _, _ => throw InvalidSyntax
  end.

(** A token read after a complete operand [e]. *)
Definition shift_postfix (stack : list frame) (e : expr) (t : token)
  : result parser_state :=
  match t with
  | TLParen => Ret (FCall e Plain :: stack, None)
  | TRParen =>
      match reduce 0 stack e with
      | (FGroup :: stack', e') => Ret (stack', Some e')
      | (FCall f p :: stack', e') => Ret (stack', Some (ECall f p e'))
      | _ => throw InvalidSyntax
      end
  | _ =>
      match binop_of_token t with
      | Some op =>
          let '(stack', e') := reduce (reduce_level op) stack e in
          Ret (FBinary op e' :: stack', None)
      | None => throw InvalidSyntax
      end
  end.

Definition shift (st : parser_state) (t : token) : result parser_state :=
  match st with
  | (stack, None) => shift_prefix stack t
  | (stack, Some e) => shift_postfix stack e t
  end.

(** The end of the input: an operand must be complete and nothing may
    be left open. *)
Definition finish (st : parser_state) : result expr :=
  match st with
  | (stack, Some e) =>
      match reduce 0 stack e with
      | ([], e') => Ret e'
      | _ => throw InvalidSyntax
      end
  | (_, None) => throw InvalidSyntax
  end.

Fixpoint parse_from (st : parser_state) (ts : list token) : result expr :=
  match ts with
  | [] => finish st
  | t :: ts' => let! st' := shift st t in parse_from st' ts'
  end.

Definition parse (ts : list token) : result expr := parse_from ([], None) ts.

(** *** Evaluation *)

(** The largest sequence length, on a 64-bit interpreter. *)
Definition PY_SSIZE_T_MAX : Z := 2 ^ 63 - 1.

Definition to_inexact (z : Z) : result inexact :=
  match inexact_of_int z with
  | Some x => Ret x
  | None => throw (IntTooLarge z)
  end.

Definition inexact_op (op : binop) (x y : inexact) : result (evalue inexact) :=
  match inexact_binop op x y with
  | inl r => Ret (EInexact r)
  | inr err => throw (InexactFailed err op x y)
  end.

(** Integers: exact, with floor division and a remainder that takes the
    sign of the divisor; [/] and a negative exponent leave the
    integers. *)
Definition int_op (op : binop) (a b : Z) : result (evalue inexact) :=
  match op with
  | Add => Ret (EInt (a + b))
  | Sub => Ret (EInt (a - b))
  | Mul => Ret (EInt (a * b))
  | Div =>
      if b =? 0 then throw (DivisionByZero op a b)
      else match int_true_divide a b with
           | Some x => Ret (EInexact x)
           | None => throw (QuotientTooLarge a b)
           end
  | FloorDiv =>
      if b =? 0 then throw (DivisionByZero op a b)
      else Ret (EInt (Z.div a b))
  | Mod =>
      if b =? 0 then throw (DivisionByZero op a b)
      else Ret (EInt (Z.modulo a b))
  | Pow =>
      if 0 <=? b then Ret (EInt (a ^ b))
      else
        let! x := to_inexact a in
        let! y := to_inexact b in
        inexact_op Pow x y
  end.

(** [() * n] and [n * ()]. *)
Definition repeat_empty (n : Z) : result (evalue inexact) :=
  if (- PY_SSIZE_T_MAX - 1 <=? n) && (n <=? PY_SSIZE_T_MAX) then Ret ETuple0
  else throw (RepeatCountTooLarge n).

Definition binary (op : binop) (l r : evalue inexact)
  : result (evalue inexact) :=
  match l, r with
  | EInt a, EInt b => int_op op a b
  | EInt a, EInexact y => let! x := to_inexact a in inexact_op op x y
  | EInexact x, EInt b => let! y := to_inexact b in inexact_op op x y
  | EInexact x, EInexact y => inexact_op op x y
  | ETuple0, ETuple0 =>
      match op with
      | Add => Ret ETuple0
      | _ => throw (UnsupportedOperands op l r)
      end
  | ETuple0, EInt n | EInt n, ETuple0 =>
      match op with
      | Mul => repeat_empty n
      | _ => throw (UnsupportedOperands op l r)
      end
  | _, _ => throw (UnsupportedOperands op l r)
  end.

Definition unary (op : unop) (v : evalue inexact) : result (evalue inexact) :=
  match op, v with
  | UPos, EInt a => Ret (EInt a)
  | UNeg, EInt a => Ret (EInt (- a))
  | UPos, EInexact x => Ret (EInexact x)
  | UNeg, EInexact x => Ret (EInexact (inexact_neg x))
  | _, _ => throw (BadUnaryOperand op v)
  end.

(** Operands are evaluated left to right, the callee before its
    argument.  Nothing an expression denotes is callable, so a call
    raises once callee and argument are evaluated. *)
Fixpoint eval_expr (e : expr) : result (evalue inexact) :=
  match e with
  | ENum (LInt z) => Ret (EInt z)
  | ENum (LFloat text) => Ret (EInexact (inexact_of_literal text))
  | EDots => Ret EEllipsis
  | EEmptyTuple => Ret ETuple0
  | EUnary op e1 => let! v := eval_expr e1 in unary op v
  | EBinary op l r =>
      let! a := eval_expr l in
      let! b := eval_expr r in
      binary op a b
  | ECallEmpty f => let! vf := eval_expr f in throw (NotCallable vf)
  | ECall f p a =>
      let! vf := eval_expr f in
      let! va := eval_expr a in
      match p, va with
      | Plain, _ => throw (NotCallable vf)
      | Star, ETuple0 => throw (NotCallable vf)
      | Star, _ => throw (StarArgNotIterable va)
      | DoubleStar, _ => throw (DoubleStarArgNotMapping va)
      end
  end.

(** [eval(s)] for a string [s]. *)
Definition py_eval (s : string) : result (evalue inexact) :=
  let! ts := tokenize s in
  let! e := parse ts in
  eval_expr e.

(** The builtin [eval]: on anything but a string (the program has no
    bytes or code objects) it raises [TypeError]. *)
Definition builtin_eval (v : value inexact) : result (evalue inexact) :=
  match v with
  | VStr s => py_eval s
  | _ => throw (EvalArgNotString v)
  end.

(** ** Statements and builtins the program uses *)

(** [try: body / except Exception as e: handler(e)]. *)
Definition try_except_Exception {A} (body : result A)
    (handler : exn -> result A) : result A :=
  match body with
  | Ret a => Ret a
  | Raise e => if isinstance_Exception e then handler e else Raise e
  end.

(** The characters of a string, as Python sees them when iterating:
    strings of length one. *)
Fixpoint chars (s : string) : list string :=
  match s with
  | EmptyString => []
  | String c s' => String c "" :: chars s'
  end.

(** [iter(v)], run to the end. *)
Definition iterate (v : value inexact) : result (list (value inexact)) :=
  match v with
  | VStr s => Ret (VStr <$> chars s)
  | VList l => Ret l
  | VDict d => Ret ((fun kv => VStr (fst kv)) <$> d)
  | VTuple0 => Ret []
  | _ => throw (NotIterable v)
  end.

(** [c in s] for a set of strings [s]: [c] is hashed first. *)
Definition set_contains (s : gset string) (c : value inexact) : result bool :=
  match c with
  | VStr t => Ret (bool_decide (t ∈ s))
  | VList _ | VDict _ => throw (Unhashable c)
  | _ => Ret false
  end.

(** [all(c in s for c in items)]: stops at the first [False]. *)
Fixpoint all_in (s : gset string) (items : list (value inexact)) : result bool :=
  match items with
  | [] => Ret true
  | c :: items' =>
      let! b := set_contains s c in
      if b then all_in s items' else Ret false
  end.

(** ** The calculator tool *)

(** [calculator], with the builtin [eval] it calls as a parameter. *)
Definition calculator_with (eval : value inexact -> result (evalue inexact))
    (expression : value inexact) : result (value inexact) :=
  try_except_Exception
    (let allowed_chars : gset string :=
       list_to_set (chars "0123456789+-*/()%. ") in
     let! items := iterate expression in
     let! ok := all_in allowed_chars items in
     if ok then
       let! result := eval expression in
       Ret (VDict [("result", to_value result)])
     else Ret (VDict [("error", VStr "Invalid expression")]))
    (fun e => Ret (VDict [("error", VStr (str e))])).

Definition calculator : value inexact -> result (value inexact) :=
  calculator_with builtin_eval.

End Interpreter.

(** ** The world and the monad of the endpoints *)

(** The entries of [TOOL_FUNCTIONS]: the two functions defined in the
    module. *)
Inductive tool_function := fn_get_current_datetime | fn_calculator.

Section World.

Context {P : Platform}.

(** What [client.post] comes back with: a response, or an [httpx]
    transport error (connection refused, timeout after 30 seconds, ...)
    with its text. *)
Inductive http_outcome :=
| Responded (r : response inexact)
| TransportFailed (msg : string).

(** An outbound call: the URL and the JSON payload. *)
Definition call : Type := string * value inexact.

(** The two module-level objects that are mutable ([TOOLS], a list, and
    [TOOL_FUNCTIONS], a dict), what the environment answers, and what has
    happened so far. *)
Record World := {
  TOOLS : list (value inexact);
  TOOL_FUNCTIONS : gmap string tool_function;
  (** the downstream server: its answer to a call, given the calls made
      before *)
  downstream : list call -> call -> http_outcome;
  (** [datetime.now().isoformat()] *)
  now : string;
  (** the outbound calls made, oldest first *)
  sent : list call;
  (** the tools whose body has run, oldest first *)
  ran : list string
}.

Definition M (A : Type) : Type := World -> result A * World.

Definition ret {A} (a : A) : M A := fun w => (Ret a, w).

Definition raise {A} (e : exn) : M A := fun w => (Raise e, w).

Definition lift {A} (r : result A) : M A := fun w => (r, w).

Definition mbind_M {A B} (m : M A) (k : A -> M B) : M B :=
  fun w =>
    match m w with
    | (Ret a, w') => k a w'
    | (Raise e, w') => (Raise e, w')
    end.

Definition read {A} (f : World -> A) : M A := fun w => (Ret (f w), w).

(** One more outbound call made. *)
Definition with_sent (c : call) (w : World) : World :=
  {| TOOLS := TOOLS w;
     TOOL_FUNCTIONS := TOOL_FUNCTIONS w;
     downstream := downstream w;
     now := now w;
     sent := sent w ++ [c];
     ran := ran w |}.

(** One more tool body run. *)
Definition with_ran (name : string) (w : World) : World :=
  {| TOOLS := TOOLS w;
     TOOL_FUNCTIONS := TOOL_FUNCTIONS w;
     downstream := downstream w;
     now := now w;
     sent := sent w;
     ran := ran w ++ [name] |}.

End World.

Notation "'do!' x ':=' m 'in' k" := (mbind_M m (fun x => k))
  (at level 10, x pattern, m at level 100, k at level 200).

(** Configuration *)
Definition LLM_SERVER_URL : string := "http://localhost:8001/v1/chat/completions".
Definition DEFAULT_MODEL : string := "gemma3-27b".

(** Request/Response models *)
Record ChatMessage := {
  role : string;
  content : string
}.

Record ChatRequest := {
  messages : list ChatMessage;
  conversationId : string;
  userId : option string
}.

Section Server.

Context {P : Platform}.

Abbreviation value := (value inexact).

Record ChatResponse := {
  message : string;
  toolsUsed : option (list string);
  debug : option value
}.

(** *** Dictionaries, subscripts, slices *)

Fixpoint dict_get (k : string) (d : list (string * value)) : option value :=
  match d with
  | [] => None
  | (k', v) :: d' => if String.eqb k k' then Some v else dict_get k d'
  end.

(** [d[k] = v]: the value of an existing key is replaced, a new key goes
    last. *)
Fixpoint dict_set (d : list (string * value)) (k : string) (v : value)
  : list (string * value) :=
  match d with
  | [] => [(k, v)]
  | (k', v') :: d' =>
      if String.eqb k k' then (k, v) :: d' else (k', v') :: dict_set d' k v
  end.

(** [l[i]] on a sequence; a negative index counts from the end. *)
Definition index {A} (l : list A) (i : Z) : option A :=
  if 0 <=? i then l !! Z.to_nat i
  else if 0 <=? Z.of_nat (List.length l) + i
       then l !! Z.to_nat (Z.of_nat (List.length l) + i)
       else None.

(** [v[k]] for a string [k]. *)
Definition getitem_str (v : value) (k : string) : result value :=
  match v with
  | VDict d =>
      match dict_get k d with
      | Some x => Ret x
      | None => throw (MissingKey (VStr k))
      end
  | VList _ | VStr _ | VTuple0 => throw (BadIndexType v (VStr k))
  | _ => throw (NotSubscriptable v)
  end.

(** [v[i]] for an integer [i].  The keys of the dictionaries of the
    program are strings, so an integer is never one of them. *)
Definition getitem_int (v : value) (i : Z) : result value :=
  match v with
  | VDict _ => throw (MissingKey (VInt i))
  | VList l =>
      match index l i with
      | Some x => Ret x
      | None => throw (IndexOutOfRange v)
      end
  | VStr s =>
      match index (chars s) i with
      | Some c => Ret (VStr c)
      | None => throw (IndexOutOfRange v)
      end
  | VTuple0 => throw (IndexOutOfRange v)
  | _ => throw (NotSubscriptable v)
  end.

(** [v[:n]].  Slicing a dictionary raises [TypeError] (unhashable slice)
    up to CPython 3.11 and [KeyError] from 3.12 on; the model has the
    former, and nothing below tells them apart. *)
Definition slice_to (v : value) (n : nat) : result value :=
  match v with
  | VStr s => Ret (VStr (String.substring 0 n s))
  | VList l => Ret (VList (take n l))
  | VTuple0 => Ret VTuple0
  | VDict _ => throw (DictSliced v)
  | _ => throw (NotSubscriptable v)
  end.

(** [ChatResponse(message=..., toolsUsed=..., debug=...)]: pydantic
    validates [message: str].  [chat] gets here with what it could slice,
    a string, a list or a tuple, and of these only a string is valid. *)
Definition ChatResponse_init (message : value)
    (toolsUsed : option (list string)) (debug : option value)
  : result ChatResponse :=
  match message with
  | VStr s => Ret {| message := s; toolsUsed := toolsUsed; debug := debug |}
  | _ => throw (NotAValidString message)
  end.

(** *** httpx *)

(** [await client.post(url, json=payload)]. *)
Definition post (url : string) (payload : value) : M (response inexact) :=
  fun w =>
    match downstream w (sent w) (url, payload) with
    | Responded r => (Ret r, with_sent (url, payload) w)
    | TransportFailed msg =>
        (Raise (PyExn TransportError msg), with_sent (url, payload) w)
    end.

Definition is_success (r : response inexact) : bool :=
  (200 <=? status_code r) && (status_code r <=? 299).

(** [response.raise_for_status()]: in current releases of [httpx] it
    raises [HTTPStatusError] for every status that is not 2xx. *)
Definition raise_for_status (r : response inexact) : result unit :=
  if is_success r then Ret tt else throw (BadStatus r).

(** [response.json()]. *)
Definition json (r : response inexact) : result value :=
  match body r with
  | ValidJson v => Ret v
  | InvalidJson msg => Raise (PyExn ValueError msg)
  end.

(** *** Tool implementations *)

(** The body of a tool starts running. *)
Definition enter (name : string) : M unit :=
  fun w => (Ret tt, with_ran name w).

Definition get_current_datetime : M value :=
  do! _ := enter "get_current_datetime" in
  do! t := read now in
  ret (VDict [("datetime", VStr t)]).

Definition run_calculator (expression : value) : M value :=
  do! _ := enter "calculator" in
  lift (calculator expression).

(** The first keyword that is not a parameter of the function. *)
Definition unexpected_keyword (params : list string)
    (kwargs : list (string * value)) : option string :=
  head (filter (fun k => k ∉ params) (fst <$> kwargs)).

(** [f] called with the entries of [kwargs] as keyword arguments: the
    keywords are matched with the parameters of [f], then the body runs. *)
Definition call_tool (f : tool_function) (kwargs : list (string * value))
  : M value :=
  match f with
  | fn_get_current_datetime =>
      match unexpected_keyword [] kwargs with
      | Some k => lift (throw (UnexpectedKeyword "get_current_datetime" k))
      | None => get_current_datetime
      end
  | fn_calculator =>
      match unexpected_keyword ["expression"] kwargs with
      | Some k => lift (throw (UnexpectedKeyword "calculator" k))
      | None =>
          match dict_get "expression" kwargs with
          | Some expression => run_calculator expression
          | None => lift (throw (MissingArgument "calculator" "expression"))
          end
      end
  end.

(** *** The relay *)

Definition call_llm_with_tools (messages : list value) (include_tools : bool)
  : M value :=
  let payload := [("model", VStr DEFAULT_MODEL);
                  ("messages", VList messages);
                  ("temperature", VInexact (inexact_of_literal "0.7"));
                  ("max_tokens", VInt 512)] in
  do! payload :=
    (if include_tools then
       do! tools := read TOOLS in
       let payload := dict_set payload "tools" (VList tools) in
       ret (dict_set payload "tool_choice" (VStr "auto"))
     else ret payload) in
  do! response := post LLM_SERVER_URL (VDict payload) in
  do! _ := lift (raise_for_status response) in
  lift (json response).

(** The [try] block of [chat]. *)
Definition chat_body (request : ChatRequest) : M ChatResponse :=
  let messages :=
    (fun msg => VDict [("role", VStr (role msg));
                       ("content", VStr (content msg))])
      <$> messages request in
  do! llm_response := call_llm_with_tools messages true in
  do! assistant_message := lift (
    let! choices := getitem_str llm_response "choices" in
    let! choice := getitem_int choices 0 in
    let! message := getitem_str choice "message" in
    getitem_str message "content") in
  do! _ := lift (slice_to assistant_message 100) in
  do! tools := read TOOLS in
  lift (ChatResponse_init assistant_message None
          (if bool_decide (userId request = Some "debug")
           then Some (VDict [("model", VStr DEFAULT_MODEL);
                             ("tools_available",
                              VInt (Z.of_nat (List.length tools)))])
           else None)).

(** [chat]: the block and its two [except] clauses, the one for
    [httpx.HTTPError] first. *)
Definition chat (request : ChatRequest) : M ChatResponse :=
  fun w =>
    match chat_body request w with
    | (Ret r, w') => (Ret r, w')
    | (Raise e, w') =>
        if isinstance_HTTPError e then
          (Raise (HTTPException 500 ("LLM server error: " +:+ str e)), w')
        else if isinstance_Exception e then
          (Raise (HTTPException 500 (str e)), w')
        else (Raise e, w')
    end.

Definition health : M value :=
  do! tools := read TOOLS in
  ret (VDict [("status", VStr "healthy");
              ("model", VStr DEFAULT_MODEL);
              ("tools", VInt (Z.of_nat (List.length tools)))]).

Definition execute_tool (name : string) (parameters : list (string * value))
  : M value :=
  do! table := read TOOL_FUNCTIONS in
  if bool_decide (name ∉ dom table) then
    raise (HTTPException 404 ("Tool " +:+ name +:+ " not found"))
  else
    fun w =>
      match
        (do! f := (match table !! name with
                   | Some f => ret f
                   | None => lift (throw (MissingKey (VStr name)))
                   end) in
         do! result := call_tool f parameters in
         ret (VDict [("tool", VStr name); ("result", result)])) w
      with
      | (Ret r, w') => (Ret r, w')
      | (Raise e, w') =>
          if isinstance_Exception e
          then (Raise (HTTPException 400 (str e)), w')
          else (Raise e, w')
      end.

End Server.

(** ** The process: start-up and the operations it serves *)

Section Process.

Context {P : Platform}.

Abbreviation value := (value inexact).

(** Tool definitions: the value of [TOOLS] once the module is loaded. *)
Definition TOOLS_at_start : list value :=
  [ VDict [("name", VStr "get_current_datetime");
           ("description",
            VStr "Returns the current date and time in ISO 8601 format");
           ("parameters",
            VDict [("type", VStr "object");
                   ("properties", VDict []);
                   ("required", VList [])])];
    VDict [("name", VStr "calculator");
           ("description", VStr "Calculate mathematical expressions safely");
           ("parameters",
            VDict [("type", VStr "object");
                   ("properties",
                    VDict [("expression",
                            VDict [("type", VStr "string");
                                   ("description",
                                    VStr "Mathematical expression to evaluate")])]);
                   ("required", VList [VStr "expression"])])] ].

(** The value of [TOOL_FUNCTIONS] once the module is loaded. *)
Definition TOOL_FUNCTIONS_at_start : gmap string tool_function :=
  <["calculator" := fn_calculator]>
    (<["get_current_datetime" := fn_get_current_datetime]> ∅).

(** The process once the module is loaded, in an environment given by the
    downstream server and the clock. *)
Definition boot (server : list call -> call -> http_outcome) (clock : string)
  : World :=
  {| TOOLS := TOOLS_at_start;
     TOOL_FUNCTIONS := TOOL_FUNCTIONS_at_start;
     downstream := server;
     now := clock;
     sent := [];
     ran := [] |}.

(** The environment moves on: the clock advances, the server may answer
    differently. *)
Definition elapse (server : list call -> call -> http_outcome)
    (clock : string) (w : World) : World :=
  {| TOOLS := TOOLS w;
     TOOL_FUNCTIONS := TOOL_FUNCTIONS w;
     downstream := server;
     now := clock;
     sent := sent w;
     ran := ran w |}.

(** The worlds the process can be in: after start-up, after any request to
    one of the three endpoints, whatever it returns or raises, and after
    the environment has moved on. *)
Inductive reachable : World -> Prop :=
| reachable_boot server clock :
    reachable (boot server clock)
| reachable_chat w request :
    reachable w -> reachable (snd (chat request w))
| reachable_health w :
    reachable w -> reachable (snd (health w))
| reachable_execute_tool w name parameters :
    reachable w -> reachable (snd (execute_tool name parameters w))
| reachable_elapse w server clock :
    reachable w -> reachable (elapse server clock w).

(** ** Notions of the specification *)

(** The name of a catalog entry. *)
Definition tool_name (t : value) : option string :=
  match t with
  | VDict d =>
      match dict_get "name" d with
      | Some (VStr n) => Some n
      | _ => None
      end
  | _ => None
  end.

(** Every entry of the catalog has a name, the names are pairwise
    distinct, and they are the keys of the implementation table. *)
Definition catalog_matches_table (w : World) : Prop :=
  exists names : list string,
    tool_name <$> TOOLS w = Some <$> names /\
    NoDup names /\
    (list_to_set names : gset string) = dom (TOOL_FUNCTIONS w).

(** The calculator's alphabet: digits, [+ - * / ( ) % .] and the space. *)
Definition in_alphabet (c : ascii) : bool :=
  is_digit c ||
  match c with
  | "+" | "-" | "*" | "/" | "(" | ")" | "%" | "." | " " => true
  | _ => false
  end%char.

Fixpoint string_forall (p : ascii -> bool) (s : string) : bool :=
  match s with
  | EmptyString => true
  | String c s' => p c && string_forall p s'
  end.

(** The JSON document [v] has a first choice with a message content: the
    value at [choices[0].message.content]. *)
Definition content_at (v : value) : option value :=
  match v with
  | VDict d =>
      match dict_get "choices" d with
      | Some (VList (VDict choice :: _)) =>
          match dict_get "message" choice with
          | Some (VDict msg) => dict_get "content" msg
          | _ => None
          end
      | _ => None
      end
  | _ => None
  end.

(** The text of the first choice of a response, when its body is JSON and
    has one. *)
Definition reply_text (r : response inexact) : option string :=
  match body r with
  | ValidJson v =>
      match content_at v with
      | Some (VStr s) => Some s
      | _ => None
      end
  | InvalidJson _ => None
  end.

(** The outbound call of a chat request: the configured URL and the
    payload with the model, the messages as role and content pairs, the
    two sampling parameters, the catalog and the tool choice. *)
Definition relay_call (catalog : list value) (request : ChatRequest) : call :=
  (LLM_SERVER_URL,
   VDict [("model", VStr DEFAULT_MODEL);
          ("messages",
           VList (map (fun m => VDict [("role", VStr (role m));
                                       ("content", VStr (content m))])
                      (messages request)));
          ("temperature", VInexact (inexact_of_literal "0.7"));
          ("max_tokens", VInt 512);
          ("tools", VList catalog);
          ("tool_choice", VStr "auto")]).

(** What [chat] does once the server has responded [r]. *)
Definition unwrap (request : ChatRequest) (tools : list value)
    (r : response inexact) : result ChatResponse :=
  let! _ := raise_for_status r in
  let! llm_response := json r in
  let! assistant_message :=
    (let! choices := getitem_str llm_response "choices" in
     let! choice := getitem_int choices 0 in
     let! message := getitem_str choice "message" in
     getitem_str message "content") in
  let! _ := slice_to assistant_message 100 in
  ChatResponse_init assistant_message None
    (if bool_decide (userId request = Some "debug")
     then Some (VDict [("model", VStr DEFAULT_MODEL);
                       ("tools_available", VInt (Z.of_nat (List.length tools)))])
     else None).

(** The error of the outbound call, if it failed at the transport or HTTP
    level: the transport error, or the status error that
    [raise_for_status] raises on anything but a 2xx status. *)
Definition downstream_error (o : http_outcome) : option exn :=
  match o with
  | TransportFailed msg => Some (PyExn TransportError msg)
  | Responded r =>
      if is_success r then None
      else Some (PyExn HTTPStatusError (wording (BadStatus r)))
  end.

(** The error taxonomy of the specification. *)
Inductive error_kind :=
| DownstreamUnavailableError
| DownstreamProtocolError
| ToolNotFoundError
| InvalidParametersError
| InternalError.

(** How [chat] reports an exception of its [try] block: by its first
    [except] clause (an error talking to the server), or by its second,
    the catch-all.  It has no other clause. *)
Definition chat_error_kind (e : exn) : option error_kind :=
  if isinstance_HTTPError e then Some DownstreamUnavailableError
  else if isinstance_Exception e then Some InternalError
  else None.

(** A computation that can only raise what the catch-all clause of [chat]
    reports. *)
Definition internal {A} (r : result A) : Prop :=
  forall e, r = Raise e -> chat_error_kind e = Some InternalError.

(** The parameters of a tool function, all of them required. *)
Definition parameters_of (f : tool_function) : list string :=
  match f with
  | fn_get_current_datetime => []
  | fn_calculator => ["expression"]
  end.

Definition name_of (f : tool_function) : string :=
  match f with
  | fn_get_current_datetime => "get_current_datetime"
  | fn_calculator => "calculator"
  end.

(** The keyword arguments fit the function: no keyword is unknown, no
    parameter is missing. *)
Definition accepts (f : tool_function) (kwargs : list (string * value)) : bool :=
  forallb (fun k => bool_decide (k ∈ parameters_of f)) (fst <$> kwargs) &&
  forallb (fun p => bool_decide (p ∈ (fst <$> kwargs))) (parameters_of f).

End Process.

(** ** A platform to run the model on

    Doubles are left unevaluated and the message of an exception is the
    name of its class.  It serves to run the model on concrete inputs;
    what is proved below holds on every platform. *)

Inductive symbolic :=
| SLiteral (text : string)
| SOfInt (z : Z)
| SQuotient (a b : Z)
| SBinary (op : binop) (x y : symbolic)
| SNeg (x : symbolic).

Definition class_name (c : exn_class) : string :=
  match c with
  | SyntaxError => "SyntaxError"
  | ZeroDivisionError => "ZeroDivisionError"
  | OverflowError => "OverflowError"
  | TypeError => "TypeError"
  | KeyError => "KeyError"
  | IndexError => "IndexError"
  | ValueError => "ValueError"
  | ValidationError => "ValidationError"
  | HTTPStatusError => "HTTPStatusError"
  | TransportError => "TransportError"
  | KeyboardInterrupt => "KeyboardInterrupt"
  | SystemExit => "SystemExit"
  end.

Definition symbolic_platform : Platform :=
  {| inexact := symbolic;
     inexact_of_literal := SLiteral;
     inexact_of_int := fun z => Some (SOfInt z);
     int_true_divide := fun a b => Some (SQuotient a b);
     inexact_binop := fun op x y => inl (SBinary op x y);
     inexact_neg := SNeg;
     wording := fun f => class_name (failure_class f) |}.

(** Sample environments and requests on that platform. *)

Definition answer (status : Z) (reason : string) (b : json_body symbolic)
  : list (@call symbolic_platform) -> @call symbolic_platform
    -> @http_outcome symbolic_platform :=
  fun _ _ => @Responded symbolic_platform (Response status reason b).

Definition hello_json : value symbolic :=
  VDict [("id", VStr "cmpl-1");
         ("choices",
          VList [VDict [("index", VInt 0);
                        ("message",
                         VDict [("role", VStr "assistant");
                                ("content", VStr "Hello!")])]])].

Definition healthy_world : @World symbolic_platform :=
  boot (answer 200 "OK" (ValidJson hello_json)) "2025-01-01T00:00:00".

Definition failing_world : @World symbolic_platform :=
  boot (answer 500 "Internal Server Error" (InvalidJson "Expecting value"))
       "2025-01-01T00:00:00".

Definition empty_json_world : @World symbolic_platform :=
  boot (answer 200 "OK" (ValidJson (VDict []))) "2025-01-01T00:00:00".

Definition hi_request (user : option string) : ChatRequest :=
  {| messages := [ {| role := "system"; content := "Be brief." |};
                   {| role := "user"; content := "Hi" |} ];
     conversationId := "c-1";
     userId := user |}.


(** ** test_tools_script.py

    The script posts one payload to the completions endpoint of the LLM
    server and to its debug endpoint, printing what comes back.  What it
    prints is left out; [requests.post] is modelled as [post] is: a
    response whatever its status (the script does not call
    [raise_for_status]), or a transport error. *)

Module test_tools_script.

Section Script.

Context {P : Platform}.

Definition url : string := "http://localhost:8001/v1/chat/completions".

(** Test payload with tools *)
Definition payload : value inexact :=
  VDict [("model", VStr "gemma3-27b");
         ("messages",
          VList [VDict [("role", VStr "user");
                        ("content", VStr "What's the current time?")]]);
         ("tools",
          VList [VDict [("name", VStr "get_current_datetime");
                        ("description",
                         VStr "Returns the current date and time in ISO 8601 format");
                        ("parameters",
                         VDict [("type", VStr "object");
                                ("properties", VDict []);
                                ("required", VList [])])];
                 VDict [("name", VStr "calculator");
                        ("description",
                         VStr "Calculate mathematical expressions safely");
                        ("parameters",
                         VDict [("type", VStr "object");
                                ("properties",
                                 VDict [("expression",
                                         VDict [("type", VStr "string");
                                                ("description",
                                                 VStr "Mathematical expression to evaluate")])]);
                                ("required", VList [VStr "expression"])])]]);
         ("tool_choice", VStr "auto");
         ("max_tokens", VInt 512);
         ("temperature", VInexact (inexact_of_literal "0.7"))].




End Script.

End test_tools_script.

(** ** More notions for stating properties *)

(** A run of [n] spaces. *)
Fixpoint spaces (n : nat) : string :=
  match n with
  | O => ""
  | S n' => String " " (spaces n')
  end.


(** A character that ends whatever token the tokenizer is in. *)
Definition breaks (c : ascii) : bool :=
  match c with
  | " " | "(" | ")" | "+" | "-" | "%" => true
  | _ => false
  end%char.



(** What [calculator] answers for the outcome of an evaluation. *)
Definition answer_of {P : Platform} (r : result (evalue inexact))
  : value inexact :=
  match r with
  | Ret v => VDict [("result", to_value v)]
  | Raise e => VDict [("error", VStr (str e))]
  end.

(** The payload of [call_llm_with_tools]: the four fixed entries, then
    the catalog and the tool choice when tools are included. *)
Definition llm_payload {P : Platform} (catalog messages : list (value inexact))
    (include_tools : bool) : value inexact :=
  VDict ([("model", VStr DEFAULT_MODEL);
          ("messages", VList messages);
          ("temperature", VInexact (inexact_of_literal "0.7"));
          ("max_tokens", VInt 512)]
         ++ if include_tools
            then [("tools", VList catalog); ("tool_choice", VStr "auto")]
            else []).

(** The keys of a dictionary, in order. *)
Definition keys {P : Platform} (d : list (string * value inexact))
  : list string :=
  fst <$> d.

(** * Properties *)

(** ** Exceptions raised by the interpreter are ordinary ones *)

Section Ordinary.

Context {P : Platform}.

Lemma failure_class_is_Exception (f : failure inexact) :
  is_Exception (failure_class f) = true.
Proof. destruct f as [ | | [] | | | | | | | | | | | | | | | | | | | | ]; reflexivity. Qed.

Lemma ordinary_Ret {A} (a : A) : ordinary (Ret a).
Proof. intros e H. discriminate. Qed.

Lemma ordinary_throw {A} (f : failure inexact) : ordinary (@throw P A f).
Proof.
  intros e H. unfold throw in H. injection H as <-.
  apply failure_class_is_Exception.
Qed.

Lemma ordinary_bind {A B} (m : result A) (k : A -> result B) :
  ordinary m -> (forall a, ordinary (k a)) -> ordinary (bind m k).
Proof.
  intros Hm Hk e. destruct m as [a | e']; simpl.
  - apply Hk.
  - intros [= <-]. now apply Hm.
Qed.

End Ordinary.

Create HintDb ordinary.

#[local] Hint Resolve ordinary_Ret ordinary_throw : ordinary.

(** Goals [ordinary r] where [r] is built from [Ret], [throw], [bind] and
    case distinctions. *)
Ltac ordinary_step :=
  match goal with
  | |- ordinary (Ret _) => apply ordinary_Ret
  | |- ordinary (throw _) => apply ordinary_throw
  | |- ordinary (bind _ _) => apply ordinary_bind; [ | intros ? ]
  | |- ordinary (match ?x with _ => _ end) => destruct x
  | |- ordinary (if ?b then _ else _) => destruct b
  | |- ordinary (let '(_, _) := ?x in _) => destruct x
  end.

Ltac ordinary_auto := repeat ordinary_step; eauto with ordinary.

Section Calculator.

Context {P : Platform}.

Lemma flush_ordinary st : ordinary (flush st).
Proof. unfold flush. ordinary_auto. Qed.

Lemma start_ordinary c : ordinary (start c).
Proof. unfold start. ordinary_auto. Qed.

Lemma lex_step_ordinary st c : ordinary (lex_step st c).
Proof.
  unfold lex_step.
  match goal with |- ordinary (match ?o with _ => _ end) => destruct o end.
  - apply ordinary_Ret.
  - apply ordinary_bind; [apply flush_ordinary | intros done].
    apply ordinary_bind; [apply start_ordinary | intros [ts st']].
    apply ordinary_Ret.
Qed.

Lemma lex_ordinary s : forall st, ordinary (lex st s).
Proof.
  induction s as [ | c s IH]; intros st; simpl.
  - apply flush_ordinary.
  - apply ordinary_bind; [apply lex_step_ordinary | intros [ts st']].
    apply ordinary_bind; [apply IH | intros rest]. apply ordinary_Ret.
Qed.

Lemma tokenize_ordinary s : ordinary (tokenize s).
Proof. apply lex_ordinary. Qed.

Lemma shift_ordinary st t : ordinary (shift st t).
Proof.
  destruct st as [stack [e | ]]; simpl.
  - unfold shift_postfix. ordinary_auto.
  - unfold shift_prefix. ordinary_auto.
Qed.

Lemma finish_ordinary st : ordinary (finish st).
Proof. unfold finish. ordinary_auto. Qed.

Lemma parse_from_ordinary ts : forall st, ordinary (parse_from st ts).
Proof.
  induction ts as [ | t ts IH]; intros st; simpl.
  - apply finish_ordinary.
  - apply ordinary_bind; [apply shift_ordinary | intros st'; apply IH].
Qed.

Lemma to_inexact_ordinary z : ordinary (to_inexact z).
Proof. unfold to_inexact. ordinary_auto. Qed.

Lemma inexact_op_ordinary op x y : ordinary (inexact_op op x y).
Proof. unfold inexact_op. ordinary_auto. Qed.

#[local] Hint Resolve to_inexact_ordinary inexact_op_ordinary : ordinary.

Lemma int_op_ordinary op a b : ordinary (int_op op a b).
Proof. unfold int_op. ordinary_auto. Qed.

Lemma repeat_empty_ordinary n : ordinary (repeat_empty n).
Proof. unfold repeat_empty. ordinary_auto. Qed.

#[local] Hint Resolve int_op_ordinary repeat_empty_ordinary : ordinary.

Lemma binary_ordinary op l r : ordinary (binary op l r).
Proof. unfold binary. ordinary_auto. Qed.

Lemma unary_ordinary op v : ordinary (unary op v).
Proof. unfold unary. ordinary_auto. Qed.

Lemma eval_expr_ordinary e : ordinary (eval_expr e).
Proof.
  induction e as [n | | | op e IH | op l IHl r IHr | f IHf | f IHf p a IHa];
    simpl.
  - destruct n; apply ordinary_Ret.
  - apply ordinary_Ret.
  - apply ordinary_Ret.
  - apply ordinary_bind; [exact IH | intros v; apply unary_ordinary].
  - apply ordinary_bind; [exact IHl | intros a].
    apply ordinary_bind; [exact IHr | intros b; apply binary_ordinary].
  - apply ordinary_bind; [exact IHf | intros vf; apply ordinary_throw].
  - apply ordinary_bind; [exact IHf | intros vf].
    apply ordinary_bind; [exact IHa | intros va].
    destruct p, va; apply ordinary_throw.
Qed.

(** [eval] on a string raises nothing but subclasses of [Exception]. *)
Lemma py_eval_ordinary s : ordinary (py_eval s).
Proof.
  unfold py_eval.
  apply ordinary_bind; [apply tokenize_ordinary | intros ts].
  apply ordinary_bind; [apply parse_from_ordinary | intros e].
  apply eval_expr_ordinary.
Qed.

Lemma builtin_eval_ordinary v : ordinary (builtin_eval v).
Proof. destruct v; simpl; try apply ordinary_throw. apply py_eval_ordinary. Qed.

Lemma all_in_ordinary allowed items : ordinary (all_in allowed items).
Proof.
  induction items as [ | c items IH]; simpl.
  - apply ordinary_Ret.
  - apply ordinary_bind.
    + unfold set_contains. ordinary_auto.
    + intros [ | ]; [exact IH | apply ordinary_Ret].
Qed.

(** The handler of [calculator] returns, so the tool returns whenever
    its body raises an ordinary exception; with the builtin [eval], it
    can raise no other. *)
Lemma calculator_returns (expression : value inexact) :
  exists d, calculator expression = Ret d.
Proof.
  unfold calculator, calculator_with, try_except_Exception.
  match goal with |- context [match ?b with _ => _ end] =>
    assert (Hb : ordinary b); [ | destruct b as [d | e] ] end.
  - apply ordinary_bind; [unfold iterate; ordinary_auto | intros items].
    apply ordinary_bind; [apply all_in_ordinary | intros [ | ]].
    + apply ordinary_bind; [apply builtin_eval_ordinary | intros r].
      apply ordinary_Ret.
    + apply ordinary_Ret.
  - now exists d.
  - rewrite (Hb e eq_refl). eauto.
Qed.

(** The membership test of [calculator] accepts exactly the characters of
    the alphabet. *)
Lemma allowed_chars_alphabet (c : ascii) :
  bool_decide (String c "" ∈
    (list_to_set (chars "0123456789+-*/()%. ") : gset string))
  = in_alphabet c.
Proof.
  destruct c as [[] [] [] [] [] [] [] []]; vm_compute; reflexivity.
Qed.

Lemma all_in_chars (s : string) :
  all_in (list_to_set (chars "0123456789+-*/()%. ")) (VStr <$> chars s)
  = Ret (string_forall in_alphabet s).
Proof.
  induction s as [ | c s IH].
  - reflexivity.
  - cbn [chars fmap list_fmap all_in set_contains bind string_forall].
    rewrite allowed_chars_alphabet.
    destruct (in_alphabet c); [exact IH | reflexivity].
Qed.

End Calculator.

Section CalculatorClaims.

Context {P : Platform}.

Lemma calculator_with_string eval (s : string) :
  calculator_with eval (VStr s)
  = try_except_Exception
      (if string_forall in_alphabet s then
         let! result := eval (VStr s) in
         Ret (VDict [("result", to_value result)])
       else Ret (VDict [("error", VStr "Invalid expression")]))
      (fun e => Ret (VDict [("error", VStr (str e))])).
Proof.
  unfold calculator_with.
  cbn [iterate bind]. rewrite all_in_chars. reflexivity.
Qed.

(** C3: [calculator] returns on every string and never raises.  A string
    with a character outside digits, [+ - * / ( ) % .] and space gives
    [{"error": "Invalid expression"}] whatever [eval] would do with it; a
    string that passes gives [{"error": str(e)}] when evaluation raises [e]
    and [{"result": v}] when it returns [v]; for instance ["2+2"] gives
    [{"result": 4}], and ["10/0"] and ["2+"] give an error. *)
Theorem calculator_total (s : string) :
  (exists d, calculator (VStr s) = Ret d) /\
  (string_forall in_alphabet s = false ->
   forall eval,
     calculator_with eval (VStr s)
     = Ret (VDict [("error", VStr "Invalid expression")])) /\
  (string_forall in_alphabet s = true ->
   forall e, py_eval s = Raise e ->
     calculator (VStr s) = Ret (VDict [("error", VStr (str e))])) /\
  (string_forall in_alphabet s = true ->
   forall v, py_eval s = Ret v ->
     calculator (VStr s) = Ret (VDict [("result", to_value v)])) /\
  calculator (VStr "2+2") = Ret (VDict [("result", VInt 4)]) /\
  calculator (VStr "10/0")
  = Ret (VDict [("error", VStr (wording (DivisionByZero Div 10 0)))]) /\
  calculator (VStr "2+")
  = Ret (VDict [("error", VStr (wording InvalidSyntax))]).
Proof.
  split; [apply calculator_returns | ].
  split; [ | split; [ | split; [ | repeat split ] ] ].
  - intros Hs eval. rewrite calculator_with_string, Hs. reflexivity.
  - intros Hs e He. unfold calculator.
    rewrite calculator_with_string, Hs. cbn [builtin_eval]. rewrite He.
    cbn [bind try_except_Exception].
    now rewrite (py_eval_ordinary s e He).
  - intros Hs v Hv. unfold calculator.
    rewrite calculator_with_string, Hs. cbn [builtin_eval]. rewrite Hv.
    reflexivity.
Qed.

(** C10: the check of [calculator] is on characters only.  ["2**3"] and
    ["7//2"] are made of allowed characters, are evaluated, and give
    [{"result": 8}] and [{"result": 3}]; the empty string passes the check
    too, [eval] raises a syntax error on it, and the tool returns it as
    [{"error": ...}]. *)
Theorem calculator_checks_characters_only :
  (string_forall in_alphabet "2**3" = true /\
   py_eval "2**3" = Ret (EInt 8) /\
   calculator (VStr "2**3") = Ret (VDict [("result", VInt 8)])) /\
  (string_forall in_alphabet "7//2" = true /\
   py_eval "7//2" = Ret (EInt 3) /\
   calculator (VStr "7//2") = Ret (VDict [("result", VInt 3)])) /\
  (string_forall in_alphabet "" = true /\
   py_eval "" = Raise (PyExn SyntaxError (wording InvalidSyntax)) /\
   calculator (VStr "")
   = Ret (VDict [("error", VStr (wording InvalidSyntax))])).
Proof. repeat split. Qed.

End CalculatorClaims.

Lemma calculator_total_witness :
  @calculator_with symbolic_platform (fun _ => Raise (PyExn SystemExit ""))
    (VStr "import os")
  = Ret (VDict [("error", VStr "Invalid expression")]) /\
  @calculator symbolic_platform (VStr "1%0")
  = Ret (VDict [("error", VStr "ZeroDivisionError")]) /\
  @calculator symbolic_platform (VStr "(1+2)*3")
  = Ret (VDict [("result", VInt 9)]).
Proof.
  split; [ | split ].
  - destruct (@calculator_total symbolic_platform "import os")
      as (_ & H & _).
    apply (H eq_refl).
  - destruct (@calculator_total symbolic_platform "1%0")
      as (_ & _ & H & _).
    apply (H eq_refl (PyExn ZeroDivisionError "ZeroDivisionError") eq_refl).
  - destruct (@calculator_total symbolic_platform "(1+2)*3")
      as (_ & _ & _ & H & _).
    apply (H eq_refl (EInt 9) eq_refl).
Defined.

(** ** The relay *)

Section Relay.

Context {P : Platform}.

Lemma internal_Ret {A} (a : A) : internal (Ret a).
Proof. intros e H. discriminate. Qed.

Lemma internal_throw {A} (f : failure inexact) :
  is_HTTPError (failure_class f) = false -> internal (@throw P A f).
Proof.
  intros Hf e H. unfold throw in H. injection H as <-.
  unfold chat_error_kind. cbn. rewrite Hf, failure_class_is_Exception.
  reflexivity.
Qed.

Lemma internal_bind {A B} (m : result A) (k : A -> result B) :
  internal m -> (forall a, internal (k a)) -> internal (bind m k).
Proof.
  intros Hm Hk e. destruct m as [a | e']; simpl.
  - apply Hk.
  - intros [= <-]. now apply Hm.
Qed.

Lemma getitem_str_internal (v : value inexact) k : internal (getitem_str v k).
Proof.
  unfold getitem_str.
  destruct v; try (now apply internal_throw).
  destruct (dict_get k d); [apply internal_Ret | now apply internal_throw].
Qed.

Lemma getitem_int_internal (v : value inexact) i : internal (getitem_int v i).
Proof.
  unfold getitem_int.
  destruct v; try (now apply internal_throw).
  - destruct (index (chars s) i); [apply internal_Ret | now apply internal_throw].
  - destruct (index l i); [apply internal_Ret | now apply internal_throw].
Qed.

Lemma slice_to_internal (v : value inexact) n : internal (slice_to v n).
Proof.
  unfold slice_to.
  destruct v; try (now apply internal_throw); apply internal_Ret.
Qed.

Lemma ChatResponse_init_internal (v : value inexact) t d :
  internal (ChatResponse_init v t d).
Proof.
  unfold ChatResponse_init.
  destruct v; try (now apply internal_throw); apply internal_Ret.
Qed.

Lemma json_internal (r : response inexact) : internal (json r).
Proof.
  unfold json. destruct (body r); [apply internal_Ret | ].
  intros e [= <-]. reflexivity.
Qed.

(** The subscripts [["choices"][0]["message"]["content"]] find what is at
    that place of the document, and raise when there is nothing. *)
Lemma subscripts_content_at (v : value inexact) :
  let found :=
    let! choices := getitem_str v "choices" in
    let! choice := getitem_int choices 0 in
    let! message := getitem_str choice "message" in
    getitem_str message "content" in
  match content_at v with
  | Some x => found = Ret x
  | None => exists e, found = Raise e
  end.
Proof.
  cbv zeta. unfold content_at.
  destruct v; try (eexists; reflexivity).
  cbn [getitem_str]. destruct (dict_get "choices" d) as [choices | ];
    [ | eexists; reflexivity ].
  cbn [bind].
  destruct choices as [ | | | | s | l | | | ]; try (eexists; reflexivity).
  - unfold getitem_int. destruct (index (chars s) 0); eexists; reflexivity.
  - destruct l as [ | choice l]; [eexists; reflexivity | ].
    change (getitem_int (VList (choice :: l)) 0) with (Ret choice).
    cbn [bind].
    destruct choice; try (eexists; reflexivity).
    cbn [getitem_str]. destruct (dict_get "message" d0) as [message | ];
      [ | eexists; reflexivity ].
    cbn [bind].
    destruct message; try (eexists; reflexivity).
    cbn [getitem_str]. destruct (dict_get "content" d1);
      [reflexivity | eexists; reflexivity].
Qed.

(** One run of the [try] block of [chat]: one call goes out, and the
    outcome is decided by what comes back. *)
Lemma chat_body_run (request : ChatRequest) (w : World) :
  chat_body request w
  = (match downstream w (sent w) (relay_call (TOOLS w) request) with
     | Responded r => unwrap request (TOOLS w) r
     | TransportFailed msg => Raise (PyExn TransportError msg)
     end,
     with_sent (relay_call (TOOLS w) request) w).
Proof.
  unfold chat_body, call_llm_with_tools, mbind_M, read, ret, lift, post.
  cbn [dict_set String.eqb Ascii.eqb Bool.eqb].
  change (LLM_SERVER_URL, VDict _) with (relay_call (TOOLS w) request).
  destruct (downstream w (sent w) (relay_call (TOOLS w) request)) as [r | msg];
    [ | reflexivity ].
  unfold unwrap.
  destruct (raise_for_status r) as [[] | e]; [ | reflexivity ].
  destruct (json r) as [v | e]; [ | reflexivity ].
  cbn [bind].
  destruct (let! choices := getitem_str v "choices" in
            let! choice := getitem_int choices 0 in
            let! message := getitem_str choice "message" in
            getitem_str message "content") as [x | e]; [ | reflexivity ].
  cbn [bind].
  destruct (slice_to x 100) as [y | e]; [ | reflexivity ].
  cbn [bind with_sent TOOLS].
  destruct (ChatResponse_init _ _ _); reflexivity.
Qed.

End Relay.

Section RelayClaims.

Context {P : Platform}.

Lemma unwrap_status request tools (r : response inexact) :
  is_success r = false ->
  unwrap request tools r = Raise (PyExn HTTPStatusError (wording (BadStatus r))).
Proof.
  intros Hr. unfold unwrap, raise_for_status. rewrite Hr. reflexivity.
Qed.

Lemma unwrap_reply request tools (r : response inexact) s :
  is_success r = true ->
  reply_text r = Some s ->
  unwrap request tools r
  = Ret {| message := s;
           toolsUsed := None;
           debug :=
             if bool_decide (userId request = Some "debug")
             then Some (VDict [("model", VStr DEFAULT_MODEL);
                               ("tools_available",
                                VInt (Z.of_nat (List.length tools)))])
             else None |}.
Proof.
  intros Hr Hs. unfold unwrap, raise_for_status, json. rewrite Hr.
  unfold reply_text in Hs. destruct (body r) as [v | msg]; [ | discriminate].
  cbn [bind]. pose proof (subscripts_content_at v) as Hv. cbv zeta in Hv.
  destruct (content_at v) as [x | ]; [ | discriminate].
  rewrite Hv. destruct x; try discriminate.
  injection Hs as ->. reflexivity.
Qed.

Lemma unwrap_malformed request tools (r : response inexact) :
  is_success r = true ->
  reply_text r = None ->
  exists e,
    unwrap request tools r = Raise e /\
    chat_error_kind e = Some InternalError.
Proof.
  intros Hr Hs. unfold unwrap, raise_for_status. rewrite Hr. cbn [bind].
  unfold reply_text in Hs. unfold json.
  destruct (body r) as [v | msg]; [ | eexists; split; reflexivity ].
  cbn [bind]. pose proof (subscripts_content_at v) as Hv. cbv zeta in Hv.
  destruct (content_at v) as [x | ].
  - rewrite Hv. cbn [bind].
    destruct x; try discriminate; eexists; split; reflexivity.
  - destruct Hv as [e He]. rewrite He. exists e. split; [reflexivity | ].
    revert e He. apply internal_bind; [apply getitem_str_internal | intros a].
    apply internal_bind; [apply getitem_int_internal | intros b].
    apply internal_bind; [apply getitem_str_internal | intros c].
    apply getitem_str_internal.
Qed.

(** [chat] in terms of its [try] block. *)
Lemma chat_run (request : ChatRequest) (w : World) :
  chat request w
  = (match fst (chat_body request w) with
     | Ret r => Ret r
     | Raise e =>
         match chat_error_kind e with
         | Some DownstreamUnavailableError =>
             Raise (HTTPException 500 ("LLM server error: " +:+ str e))
         | Some _ => Raise (HTTPException 500 (str e))
         | None => Raise e
         end
     end,
     with_sent (relay_call (TOOLS w) request) w).
Proof.
  unfold chat, chat_error_kind. rewrite chat_body_run. cbn [fst].
  destruct (downstream w (sent w) (relay_call (TOOLS w) request)) as [r | msg].
  - destruct (unwrap request (TOOLS w) r) as [resp | e]; [reflexivity | ].
    destruct (isinstance_HTTPError e); [reflexivity | ].
    destruct (isinstance_Exception e); reflexivity.
  - reflexivity.
Qed.

End RelayClaims.

(** ** The direct invoker *)

Section Invoker.

Context {P : Platform}.

Lemma unexpected_keyword_None params (kwargs : list (string * value inexact)) :
  unexpected_keyword params kwargs = None <->
  forallb (fun k => bool_decide (k ∈ params)) (fst <$> kwargs) = true.
Proof.
  unfold unexpected_keyword.
  induction kwargs as [ | [k v] kwargs IH]; [easy | ].
  cbn [fmap list_fmap fst forallb]. rewrite filter_cons.
  destruct (decide (k ∉ params)) as [Hk | Hk].
  - rewrite bool_decide_eq_false_2 by exact Hk. easy.
  - rewrite bool_decide_eq_true_2 by (destruct (decide (k ∈ params)); tauto).
    exact IH.
Qed.

Lemma dict_get_None k (d : list (string * value inexact)) :
  dict_get k d = None <-> k ∉ fst <$> d.
Proof.
  induction d as [ | [k' v] d IH]; cbn [dict_get fmap list_fmap fst].
  - split; [intros _; apply not_elem_of_nil | reflexivity].
  - rewrite not_elem_of_cons. destruct (String.eqb_spec k k') as [-> | Hk].
    + split; [discriminate | intros [[] _]; reflexivity].
    + rewrite IH. tauto.
Qed.

(** Keyword arguments that do not fit: the call raises [TypeError] and no
    body runs. *)
Lemma call_tool_rejects f (kwargs : list (string * value inexact)) w :
  accepts f kwargs = false ->
  exists fl,
    failure_class fl = TypeError /\
    call_tool f kwargs w = (throw fl, w).
Proof.
  unfold accepts, call_tool. intros Hacc.
  destruct f; cbn [parameters_of forallb] in Hacc.
  - rewrite andb_true_r in Hacc.
    destruct (unexpected_keyword [] kwargs) as [k | ] eqn:Hk.
    + eexists (UnexpectedKeyword _ k). split; reflexivity.
    + apply unexpected_keyword_None in Hk. congruence.
  - destruct (unexpected_keyword ["expression"] kwargs) as [k | ] eqn:Hk.
    + eexists (UnexpectedKeyword _ k). split; reflexivity.
    + apply unexpected_keyword_None in Hk. rewrite Hk in Hacc.
      cbn [andb] in Hacc. rewrite andb_true_r in Hacc.
      apply bool_decide_eq_false in Hacc. apply dict_get_None in Hacc.
      rewrite Hacc. eexists (MissingArgument _ _). split; reflexivity.
Qed.

(** Keyword arguments that fit: the body runs, and returns. *)
Lemma call_tool_accepts f (kwargs : list (string * value inexact)) w :
  accepts f kwargs = true ->
  exists result,
    call_tool f kwargs w = (Ret result, with_ran (name_of f) w).
Proof.
  unfold accepts, call_tool. intros Hacc.
  apply andb_true_iff in Hacc as [Hkeys Hparams].
  apply unexpected_keyword_None in Hkeys.
  destruct f; cbn [parameters_of forallb] in Hkeys, Hparams; rewrite Hkeys.
  - eexists. reflexivity.
  - rewrite andb_true_r in Hparams. apply bool_decide_eq_true in Hparams.
    destruct (dict_get "expression" kwargs) as [v | ] eqn:Hv.
    + destruct (calculator_returns v) as [d Hd]. exists d.
      unfold run_calculator, mbind_M, enter, lift. now rewrite Hd.
    + apply dict_get_None in Hv. contradiction.
Qed.

Lemma execute_tool_unknown name (parameters : list (string * value inexact)) w :
  TOOL_FUNCTIONS w !! name = None ->
  execute_tool name parameters w
  = (Raise (HTTPException 404 ("Tool " +:+ name +:+ " not found")), w).
Proof.
  intros Hname. unfold execute_tool, mbind_M, read.
  rewrite bool_decide_eq_true_2; [reflexivity | ].
  now apply not_elem_of_dom.
Qed.

Lemma execute_tool_known name (parameters : list (string * value inexact)) w f :
  TOOL_FUNCTIONS w !! name = Some f ->
  execute_tool name parameters w
  = match call_tool f parameters w with
    | (Ret result, w') =>
        (Ret (VDict [("tool", VStr name); ("result", result)]), w')
    | (Raise e, w') =>
        if isinstance_Exception e then (Raise (HTTPException 400 (str e)), w')
        else (Raise e, w')
    end.
Proof.
  intros Hname. unfold execute_tool, mbind_M, read.
  rewrite bool_decide_eq_false_2.
  - rewrite Hname. unfold ret.
    destruct (call_tool f parameters w) as [[result | e] w']; reflexivity.
  - intros Hdom. apply Hdom, elem_of_dom. now exists f.
Qed.

(** C4: [execute_tool] on a name that is not a key of [TOOL_FUNCTIONS]
    raises [HTTPException(404)] and leaves the world as it was: no tool
    body has run.  On a known name whose function does not accept the
    parameters (a keyword it does not have, or its parameter missing, as
    for [calculator] with no parameters) the call raises a [TypeError],
    reported as [HTTPException(400)] with its text, and no body has run
    either.  Otherwise the body runs once and the endpoint returns
    [{"tool": name, "result": result}]. *)
Theorem execute_tool_outcomes name (parameters : list (string * value inexact)) w :
  (TOOL_FUNCTIONS w !! name = None ->
   execute_tool name parameters w
   = (Raise (HTTPException 404 ("Tool " +:+ name +:+ " not found")), w)) /\
  (forall f,
     TOOL_FUNCTIONS w !! name = Some f ->
     accepts f parameters = false ->
     exists e,
       fst (call_tool f parameters w) = Raise e /\
       execute_tool name parameters w
       = (Raise (HTTPException 400 (str e)), w)) /\
  (forall f,
     TOOL_FUNCTIONS w !! name = Some f ->
     accepts f parameters = true ->
     exists result,
       fst (call_tool f parameters w) = Ret result /\
       execute_tool name parameters w
       = (Ret (VDict [("tool", VStr name); ("result", result)]),
          with_ran (name_of f) w)) /\
  (forall server clock,
     execute_tool "nonexistent" [] (boot server clock)
     = (Raise (HTTPException 404 "Tool nonexistent not found"),
        boot server clock) /\
     execute_tool "calculator" [] (boot server clock)
     = (Raise (HTTPException 400
                 (wording (MissingArgument "calculator" "expression"))),
        boot server clock)).
Proof.
  split; [apply execute_tool_unknown | ].
  split; [ | split ].
  - intros f Hname Hacc.
    destruct (call_tool_rejects f parameters w Hacc) as (fl & Hfl & Hcall).
    exists (PyExn (failure_class fl) (wording fl)).
    rewrite (execute_tool_known _ _ _ _ Hname), Hcall.
    split; [reflexivity | ]. unfold throw.
    cbn [isinstance_Exception]. now rewrite failure_class_is_Exception.
  - intros f Hname Hacc.
    destruct (call_tool_accepts f parameters w Hacc) as (result & Hcall).
    exists result.
    rewrite (execute_tool_known _ _ _ _ Hname), Hcall. split; reflexivity.
  - intros server clock. split.
    + apply execute_tool_unknown. reflexivity.
    + rewrite (execute_tool_known _ _ _ fn_calculator); reflexivity.
Qed.

End Invoker.

(** ** The module-level objects are never mutated *)

Section Invariant.

Context {P : Platform}.

Lemma chat_world (request : ChatRequest) (w : World) :
  snd (chat request w) = with_sent (relay_call (TOOLS w) request) w.
Proof. now rewrite chat_run. Qed.

Lemma health_world (w : World) : snd (health w) = w.
Proof. reflexivity. Qed.

Lemma execute_tool_world name (parameters : list (string * value inexact)) w :
  snd (execute_tool name parameters w) = w \/
  exists f, snd (execute_tool name parameters w) = with_ran (name_of f) w.
Proof.
  destruct (TOOL_FUNCTIONS w !! name) as [f | ] eqn:Hname.
  - rewrite (execute_tool_known _ _ _ _ Hname).
    destruct (accepts f parameters) eqn:Hacc.
    + destruct (call_tool_accepts f parameters w Hacc) as (result & ->).
      right. now exists f.
    + destruct (call_tool_rejects f parameters w Hacc) as (fl & _ & ->).
      unfold throw. cbn [isinstance_Exception].
      rewrite failure_class_is_Exception. now left.
  - rewrite execute_tool_unknown by exact Hname. now left.
Qed.

Lemma reachable_objects (w : World) :
  reachable w ->
  TOOLS w = TOOLS_at_start /\ TOOL_FUNCTIONS w = TOOL_FUNCTIONS_at_start.
Proof.
  induction 1 as [server clock | w request _ IH | w _ IH
                 | w name parameters _ IH | w server clock _ IH].
  - split; reflexivity.
  - rewrite chat_world. exact IH.
  - exact IH.
  - destruct (execute_tool_world name parameters w) as [-> | [f ->]]; exact IH.
  - exact IH.
Qed.

Lemma start_catalog_matches_table :
  exists names : list string,
    tool_name <$> TOOLS_at_start = Some <$> names /\
    NoDup names /\
    (list_to_set names : gset string) = dom TOOL_FUNCTIONS_at_start.
Proof.
  exists ["get_current_datetime"; "calculator"].
  split; [reflexivity | split].
  - apply NoDup_cons. split.
    + rewrite list_elem_of_singleton. discriminate.
    + apply NoDup_singleton.
  - unfold TOOL_FUNCTIONS_at_start.
    rewrite !dom_insert_L, dom_empty_L. set_solver.
Qed.

(** C9: in every world the process can reach, the names of the catalog are
    pairwise distinct and are exactly the keys of [TOOL_FUNCTIONS], and
    both objects are the ones built at start-up: no request to an endpoint
    mutates them. *)
Theorem catalog_invariant (w : World) :
  reachable w ->
  catalog_matches_table w /\
  TOOLS w = TOOLS_at_start /\
  TOOL_FUNCTIONS w = TOOL_FUNCTIONS_at_start.
Proof.
  intros Hw. destruct (reachable_objects w Hw) as [Htools Htable].
  split; [ | now split ].
  unfold catalog_matches_table. rewrite Htools, Htable.
  apply start_catalog_matches_table.
Qed.

(** C8: [health] returns [{"status": "healthy", "model": DEFAULT_MODEL,
    "tools": 2}] in every reachable world and leaves the world as it is,
    so calling it again gives the same. *)
Theorem health_fixed (w : World) :
  reachable w ->
  health w
  = (Ret (VDict [("status", VStr "healthy");
                 ("model", VStr DEFAULT_MODEL);
                 ("tools", VInt 2)]), w) /\
  health (snd (health w)) = health w.
Proof.
  intros Hw. destruct (reachable_objects w Hw) as [Htools _].
  split; [ | reflexivity ].
  unfold health, mbind_M, read, ret. rewrite Htools. reflexivity.
Qed.

(** C7: a chat request makes exactly one outbound call, to the configured
    URL, whatever comes back; its payload has the model, the messages as
    role and content pairs in the order of the request, temperature 0.7,
    max_tokens 512, the two-entry catalog and tool_choice "auto". *)
Theorem chat_sends_one_call (request : ChatRequest) (w : World) :
  reachable w ->
  sent (snd (chat request w))
  = sent w ++
    [(LLM_SERVER_URL,
      VDict [("model", VStr DEFAULT_MODEL);
             ("messages",
              VList (map (fun m => VDict [("role", VStr (role m));
                                          ("content", VStr (content m))])
                         (messages request)));
             ("temperature", VInexact (inexact_of_literal "0.7"));
             ("max_tokens", VInt 512);
             ("tools", VList TOOLS_at_start);
             ("tool_choice", VStr "auto")])] /\
  List.length TOOLS_at_start = 2%nat.
Proof.
  intros Hw. destruct (reachable_objects w Hw) as [Htools _].
  split; [ | reflexivity ].
  rewrite chat_world. cbn [sent with_sent]. rewrite Htools. reflexivity.
Qed.

End Invariant.

(** ** What [chat] returns and how it fails *)

Section ChatClaims.

Context {P : Platform}.

(** C1: when the server answers the call of a chat request with a 2xx
    response whose JSON has the string [s] at
    [choices[0].message.content], [chat] returns a response whose message
    is [s]; and whatever [chat] returns has no [toolsUsed]. *)
Theorem chat_returns_reply (request : ChatRequest) (w : World) :
  (forall r s,
     downstream w (sent w) (relay_call (TOOLS w) request) = Responded r ->
     is_success r = true ->
     reply_text r = Some s ->
     exists resp,
       fst (chat request w) = Ret resp /\
       message resp = s /\
       toolsUsed resp = None) /\
  (forall resp, fst (chat request w) = Ret resp -> toolsUsed resp = None).
Proof.
  split.
  - intros r s Hd Hr Hs. rewrite chat_run, chat_body_run, Hd. cbn [fst].
    rewrite (unwrap_reply _ _ _ _ Hr Hs). eexists. repeat split.
  - intros resp. rewrite chat_run, chat_body_run. cbn [fst].
    destruct (downstream w (sent w) (relay_call (TOOLS w) request))
      as [r | msg].
    + unfold unwrap.
      destruct (raise_for_status r); cbn [bind];
        [ | destruct (chat_error_kind e) as [[] | ]; discriminate ].
      destruct (json r) as [v | e]; cbn [bind];
        [ | destruct (chat_error_kind e) as [[] | ]; discriminate ].
      destruct (let! choices := getitem_str v "choices" in
                let! choice := getitem_int choices 0 in
                let! message := getitem_str choice "message" in
                getitem_str message "content") as [x | e]; cbn [bind];
        [ | destruct (chat_error_kind e) as [[] | ]; discriminate ].
      destruct (slice_to x 100) as [y | e]; cbn [bind];
        [ | destruct (chat_error_kind e) as [[] | ]; discriminate ].
      unfold ChatResponse_init.
      destruct x; unfold throw;
        try (match goal with
             | |- context [chat_error_kind ?e] =>
                 destruct (chat_error_kind e) as [[] | ]; discriminate
             end).
      intros [= <-]. reflexivity.
    + cbn. discriminate.
Qed.

(** C2: the response of [chat] has the debug object
    [{"model": DEFAULT_MODEL, "tools_available": 2}] when the [userId] of
    the request is the string ["debug"], and no debug object for any other
    [userId], [None] included. *)
Theorem chat_debug_iff (request : ChatRequest) (w : World) resp :
  reachable w ->
  fst (chat request w) = Ret resp ->
  (userId request = Some "debug" ->
   debug resp = Some (VDict [("model", VStr DEFAULT_MODEL);
                             ("tools_available", VInt 2)])) /\
  (userId request <> Some "debug" -> debug resp = None) /\
  (is_Some (debug resp) <-> userId request = Some "debug").
Proof.
  intros Hw. destruct (reachable_objects w Hw) as [Htools _].
  rewrite chat_run, chat_body_run. cbn [fst]. rewrite Htools.
  assert (Hdebug : forall r,
    unwrap request TOOLS_at_start r = Ret resp ->
    debug resp
    = if bool_decide (userId request = Some "debug")
      then Some (VDict [("model", VStr DEFAULT_MODEL);
                        ("tools_available", VInt 2)])
      else None).
  { intros r. unfold unwrap.
    destruct (raise_for_status r); cbn [bind]; [ | discriminate ].
    destruct (json r) as [v | e]; cbn [bind]; [ | discriminate ].
    destruct (let! choices := getitem_str v "choices" in
              let! choice := getitem_int choices 0 in
              let! message := getitem_str choice "message" in
              getitem_str message "content") as [x | e]; cbn [bind];
      [ | discriminate ].
    destruct (slice_to x 100) as [y | e]; cbn [bind]; [ | discriminate ].
    unfold ChatResponse_init. destruct x; try discriminate.
    intros [= <-]. reflexivity. }
  destruct (downstream w (sent w) (relay_call TOOLS_at_start request))
    as [r | msg]; [ | discriminate ].
  destruct (unwrap request TOOLS_at_start r) as [resp' | e] eqn:Hr;
    [ | destruct (chat_error_kind e) as [[] | ]; discriminate ].
  intros [= ->]. rewrite (Hdebug r Hr).
  destruct (bool_decide_reflect (userId request = Some "debug")) as [Hu | Hu].
  - split; [reflexivity | split; [contradiction | ] ].
    split; [intros _; exact Hu | intros _; eexists; reflexivity ].
  - split; [contradiction | split; [reflexivity | ] ].
    split; [intros [x Hx]; discriminate | contradiction ].
Qed.

(** C5: when the outbound call fails at the transport or HTTP level (no
    response, or a status that is not 2xx) with the error [e], the [try]
    block raises [e], the clause for [httpx.HTTPError] handles it, and
    [chat] raises [HTTPException(500)] whose detail is
    ["LLM server error: "] followed by the text of [e]. *)
Theorem chat_downstream_unavailable (request : ChatRequest) (w : World) e :
  downstream_error (downstream w (sent w) (relay_call (TOOLS w) request))
  = Some e ->
  fst (chat_body request w) = Raise e /\
  chat_error_kind e = Some DownstreamUnavailableError /\
  fst (chat request w)
  = Raise (HTTPException 500 ("LLM server error: " +:+ str e)).
Proof.
  intros He.
  assert (Hbody : fst (chat_body request w) = Raise e).
  { rewrite chat_body_run. cbn [fst]. unfold downstream_error in He.
    destruct (downstream w (sent w) (relay_call (TOOLS w) request))
      as [r | msg].
    - destruct (is_success r) eqn:Hr; [discriminate | ].
      injection He as <-. now apply unwrap_status.
    - now injection He as <-. }
  assert (Hkind : chat_error_kind e = Some DownstreamUnavailableError).
  { unfold downstream_error in He.
    destruct (downstream w (sent w) (relay_call (TOOLS w) request))
      as [r | msg].
    - destruct (is_success r); [discriminate | ]. now injection He as <-.
    - now injection He as <-. }
  split; [exact Hbody | split; [exact Hkind | ] ].
  rewrite chat_run, Hbody, Hkind. reflexivity.
Qed.

(** C6, as the code has it: when the server answers with a 2xx response
    whose body is not JSON with a string at [choices[0].message.content],
    the [try] block raises an exception that only the catch-all clause
    handles, and [chat] raises [HTTPException(500)] with the text of that
    exception as detail, as for any unexpected failure. *)
Theorem chat_malformed_response_is_internal (request : ChatRequest) (w : World) r :
  downstream w (sent w) (relay_call (TOOLS w) request) = Responded r ->
  is_success r = true ->
  reply_text r = None ->
  exists e,
    fst (chat_body request w) = Raise e /\
    chat_error_kind e = Some InternalError /\
    fst (chat request w) = Raise (HTTPException 500 (str e)).
Proof.
  intros Hd Hr Hs.
  destruct (unwrap_malformed request (TOOLS w) r Hr Hs) as (e & He & Hkind).
  exists e.
  assert (Hbody : fst (chat_body request w) = Raise e).
  { rewrite chat_body_run, Hd. exact He. }
  split; [exact Hbody | split; [exact Hkind | ] ].
  rewrite chat_run, Hbody, Hkind. reflexivity.
Qed.

End ChatClaims.

(** ** The statements at work, on the sample environments *)

Lemma chat_returns_reply_witness :
  exists resp,
    fst (chat (hi_request None) healthy_world) = Ret resp /\
    message resp = "Hello!" /\
    toolsUsed resp = None.
Proof.
  destruct (@chat_returns_reply symbolic_platform (hi_request None)
              healthy_world) as [H _].
  apply (H (Response 200 "OK" (ValidJson hello_json)) "Hello!");
    reflexivity.
Defined.

Lemma chat_debug_iff_witness :
  match fst (@chat symbolic_platform (hi_request (Some "debug")) healthy_world)
  with
  | Ret resp =>
      debug resp = Some (VDict [("model", VStr DEFAULT_MODEL);
                                ("tools_available", VInt 2)])
  | Raise _ => False
  end /\
  match fst (@chat symbolic_platform (hi_request (Some "Debug")) healthy_world)
  with
  | Ret resp => debug resp = None
  | Raise _ => False
  end.
Proof.
  split.
  - exact (proj1 (@chat_debug_iff symbolic_platform
                    (hi_request (Some "debug")) healthy_world _
                    (reachable_boot _ _) eq_refl) eq_refl).
  - refine (proj1 (proj2 (@chat_debug_iff symbolic_platform
                            (hi_request (Some "Debug")) healthy_world _
                            (reachable_boot _ _) eq_refl)) _).
    discriminate.
Defined.

Lemma execute_tool_outcomes_witness :
  @execute_tool symbolic_platform "nonexistent" [] healthy_world
  = (Raise (HTTPException 404 "Tool nonexistent not found"), healthy_world)
  /\
  (exists e,
     fst (call_tool fn_calculator [] healthy_world) = Raise e /\
     @execute_tool symbolic_platform "calculator" [] healthy_world
     = (Raise (HTTPException 400 (str e)), healthy_world)) /\
  (exists result,
     fst (call_tool fn_calculator [("expression", VStr "2+2")] healthy_world)
     = Ret result /\
     @execute_tool symbolic_platform "calculator"
       [("expression", VStr "2+2")] healthy_world
     = (Ret (VDict [("tool", VStr "calculator"); ("result", result)]),
        with_ran "calculator" healthy_world)).
Proof.
  split; [ | split ].
  - destruct (@execute_tool_outcomes symbolic_platform "nonexistent" []
                healthy_world) as (H & _).
    apply H. reflexivity.
  - destruct (@execute_tool_outcomes symbolic_platform "calculator" []
                healthy_world) as (_ & H & _).
    apply (H fn_calculator); reflexivity.
  - destruct (@execute_tool_outcomes symbolic_platform "calculator"
                [("expression", VStr "2+2")] healthy_world) as (_ & _ & H & _).
    apply (H fn_calculator); reflexivity.
Defined.

Lemma chat_downstream_unavailable_witness :
  fst (chat (hi_request None) failing_world)
  = Raise (HTTPException 500 "LLM server error: HTTPStatusError").
Proof.
  apply (@chat_downstream_unavailable symbolic_platform (hi_request None)
           failing_world (PyExn HTTPStatusError "HTTPStatusError")).
  reflexivity.
Defined.

(** The server answers 200 with the JSON document [{}]: the [try] block
    raises the [KeyError] of the first subscript, which the catch-all
    clause reports; no exception of the block is of a kind of its own for
    a malformed response. *)
Lemma chat_missing_choices_not_protocol_error :
  (exists r,
     downstream empty_json_world (sent empty_json_world)
       (relay_call (TOOLS empty_json_world) (hi_request None)) = Responded r /\
     is_success r = true /\
     reply_text r = None) /\
  ~ (exists e,
       fst (chat_body (hi_request None) empty_json_world) = Raise e /\
       chat_error_kind e = Some DownstreamProtocolError) /\
  chat_error_kind (PyExn KeyError "KeyError") = Some InternalError /\
  fst (chat (hi_request None) empty_json_world)
  = Raise (HTTPException 500 "KeyError").
Proof.
  split; [ | split; [ | split ] ].
  - eexists. repeat split.
  - intros (e & He & Hkind). vm_compute in He.
    injection He as <-. discriminate.
  - reflexivity.
  - reflexivity.
Qed.

Lemma chat_malformed_response_is_internal_witness :
  exists e,
    fst (chat_body (hi_request None) empty_json_world) = Raise e /\
    chat_error_kind e = Some InternalError /\
    fst (chat (hi_request None) empty_json_world)
    = Raise (HTTPException 500 (str e)).
Proof.
  apply (@chat_malformed_response_is_internal symbolic_platform
           (hi_request None) empty_json_world
           (Response 200 "OK" (ValidJson (VDict []))));
    reflexivity.
Defined.

Lemma chat_sends_one_call_witness :
  List.length (sent (snd (chat (hi_request None) healthy_world))) = 1%nat.
Proof.
  destruct (@chat_sends_one_call symbolic_platform (hi_request None)
              healthy_world (reachable_boot _ _)) as [-> _].
  reflexivity.
Defined.

Lemma health_fixed_witness :
  @health symbolic_platform failing_world
  = (Ret (VDict [("status", VStr "healthy");
                 ("model", VStr "gemma3-27b");
                 ("tools", VInt 2)]), failing_world).
Proof.
  apply (@health_fixed symbolic_platform failing_world (reachable_boot _ _)).
Defined.

Lemma catalog_invariant_witness :
  catalog_matches_table
    (snd (execute_tool "calculator" [("expression", VStr "1+1")]
            (snd (chat (hi_request None) healthy_world)))).
Proof.
  apply (@catalog_invariant symbolic_platform).
  apply reachable_execute_tool, reachable_chat, reachable_boot.
Defined.

(** * Further properties *)

(** ** The tokenizer and the parser on composed strings *)

Section Composition.

Context {P : Platform}.

Lemma append_nil (s : string) : "" +:+ s = s.
Proof. reflexivity. Qed.

Lemma append_cons c (s t : string) : String c s +:+ t = String c (s +:+ t).
Proof. reflexivity. Qed.

Lemma append_nil_r (s : string) : s +:+ "" = s.
Proof.
  induction s as [ | c s IH]; [reflexivity | ].
  now rewrite append_cons, IH.
Qed.

Lemma bind_assoc {A B C} (m : result A) (k : A -> result B) (h : B -> result C) :
  bind (bind m k) h = bind m (fun a => bind (k a) h).
Proof. destruct m; reflexivity. Qed.

(** A breaking character ends the token in progress, whatever it is. *)
Lemma lex_step_breaks st c :
  breaks c = true ->
  lex_step st c
  = let! done := flush st in
    let! (ts, st') := start c in
    Ret (done ++ ts, st').
Proof.
  intros Hc. unfold lex_step.
  assert (Hd : is_digit c = false /\ Ascii.eqb c "." = false /\
               Ascii.eqb c "*" = false /\ Ascii.eqb c "/" = false).
  { destruct c as [[] [] [] [] [] [] [] []]; try discriminate Hc;
      repeat split. }
  destruct Hd as (Hd & Hdot & Hstar & Hslash).
  destruct st; rewrite ?Hd, ?Hdot, ?Hstar, ?Hslash; reflexivity.
Qed.

Lemma start_breaks c :
  breaks c = true -> exists ts, start c = Ret (ts, LxStart).
Proof.
  intros Hc.
  destruct c as [[] [] [] [] [] [] [] []]; try discriminate Hc;
    eexists; reflexivity.
Qed.

(** Tokens do not extend over a breaking character: what comes before it
    and what starts with it are tokenized apart. *)
Lemma lex_app_breaks s : forall st c rest,
  breaks c = true ->
  lex st (s +:+ String c rest)
  = let! ts := lex st s in
    let! ts' := lex LxStart (String c rest) in
    Ret (ts ++ ts').
Proof.
  induction s as [ | a s IH]; intros st c rest Hc.
  - rewrite append_nil. cbn [lex]. rewrite (lex_step_breaks st c Hc).
    destruct (start_breaks c Hc) as [tc Htc].
    rewrite (lex_step_breaks LxStart c Hc), Htc. cbn [flush bind app].
    destruct (flush st) as [done | e]; cbn [bind]; [ | reflexivity ].
    destruct (lex LxStart rest) as [r | e]; cbn [bind]; [ | reflexivity ].
    now rewrite app_assoc.
  - rewrite append_cons.
    remember (lex LxStart (String c rest)) as tail eqn:Htail.
    cbn [lex].
    destruct (lex_step st a) as [[ts st'] | e]; cbn [bind]; [ | reflexivity ].
    rewrite (IH st' c rest Hc), <- Htail.
    destruct (lex st' s) as [r | e]; cbn [bind]; [ | reflexivity ].
    destruct tail as [r' | e]; cbn [bind]; [ | reflexivity ].
    now rewrite app_assoc.
Qed.

Lemma tokenize_leading_spaces n s : tokenize (spaces n +:+ s) = tokenize s.
Proof.
  unfold tokenize. induction n as [ | n IH]; [reflexivity | ].
  cbn [spaces]. rewrite append_cons. cbn [lex].
  change (lex_step LxStart " ") with (@Ret (list token * lex_state) ([], LxStart)).
  cbn [bind]. rewrite IH.
  destruct (lex LxStart s); reflexivity.
Qed.

Lemma lex_spaces n : lex LxStart (spaces n) = Ret [].
Proof.
  induction n as [ | n IH]; [reflexivity | ].
  cbn [spaces lex].
  change (lex_step LxStart " ") with (@Ret (list token * lex_state) ([], LxStart)).
  cbn [bind]. now rewrite IH.
Qed.

Lemma tokenize_trailing_spaces n s : tokenize (s +:+ spaces n) = tokenize s.
Proof.
  unfold tokenize. destruct n as [ | n].
  - cbn [spaces]. now rewrite append_nil_r.
  - cbn [spaces]. rewrite lex_app_breaks by reflexivity.
    change (String " " (spaces n)) with (spaces (S n)). rewrite lex_spaces.
    destruct (lex LxStart s) as [ts | e]; cbn [bind]; [ | reflexivity ].
    now rewrite app_nil_r.
Qed.

Lemma string_forall_app p s t :
  string_forall p (s +:+ t) = string_forall p s && string_forall p t.
Proof.
  induction s as [ | c s IH]; [reflexivity | ].
  rewrite append_cons. cbn [string_forall].
  now rewrite IH, andb_assoc.
Qed.

Lemma string_forall_spaces n : string_forall in_alphabet (spaces n) = true.
Proof. induction n as [ | n IH]; [reflexivity | exact IH]. Qed.

End Composition.

Section Parsing.

Context {P : Platform}.







End Parsing.

(** ** More on the calculator *)

Section CalculatorMore.

Context {P : Platform}.

Lemma calculator_string (s : string) :
  calculator (VStr s)
  = Ret (if string_forall in_alphabet s then answer_of (py_eval s)
         else VDict [("error", VStr "Invalid expression")]).
Proof.
  unfold calculator. rewrite calculator_with_string.
  destruct (string_forall in_alphabet s); [ | reflexivity ].
  cbn [builtin_eval]. destruct (py_eval s) as [v | e] eqn:He; cbn.
  - reflexivity.
  - now rewrite (py_eval_ordinary s e He).
Qed.


(** X1: whatever it is given, [calculator] returns a dictionary with
    exactly one entry, under ["result"] or under ["error"], and the value
    under ["error"] is a string. *)
Theorem calculator_result_shape (expression : value inexact) :
  (exists v, calculator expression = Ret (VDict [("result", v)])) \/
  (exists msg, calculator expression = Ret (VDict [("error", VStr msg)])).
Proof.
  unfold calculator, calculator_with, try_except_Exception.
  match goal with |- context [match ?b with _ => _ end] =>
    assert (Hb : ordinary b); [ | destruct b as [d | e] eqn:Hd ] end.
  - apply ordinary_bind; [unfold iterate; ordinary_auto | intros items].
    apply ordinary_bind; [apply all_in_ordinary | intros [ | ]].
    + apply ordinary_bind; [apply builtin_eval_ordinary | intros r].
      apply ordinary_Ret.
    + apply ordinary_Ret.
  - destruct (iterate expression) as [items | ]; [ | discriminate].
    cbn [bind] in Hd.
    destruct (all_in _ items) as [[ | ] | ]; cbn [bind] in Hd;
      try discriminate.
    + destruct (builtin_eval expression) as [r | ]; [ | discriminate].
      injection Hd as <-. left. eauto.
    + injection Hd as <-. right. eauto.
  - rewrite (Hb e eq_refl). right. eauto.
Qed.


(** X2: given anything but a string (a number, [None], a list, a
    dictionary, ...), [calculator] returns an error dictionary, never a
    result: what is not iterable, not hashable or not a string makes the
    body raise [TypeError], and a list or dictionary with a member outside
    the allowed characters is an invalid expression. *)
Theorem calculator_rejects_non_strings (expression : value inexact) :
  (forall s, expression <> VStr s) ->
  exists msg, calculator expression = Ret (VDict [("error", VStr msg)]).
Proof.
  intros Hns. unfold calculator, calculator_with, try_except_Exception.
  destruct expression; try (now destruct (Hns s));
    cbn [iterate bind throw builtin_eval isinstance_Exception failure_class
         is_Exception all_in];
    try (eexists; reflexivity);
    match goal with
    | |- context [all_in ?a ?items] =>
        destruct (all_in a items) as [[ | ] | e] eqn:Hall
    end;
    cbn [bind throw builtin_eval isinstance_Exception failure_class
         is_Exception];
    try (eexists; reflexivity);
    rewrite (all_in_ordinary _ _ e Hall); eexists; reflexivity.
Qed.

(** X3: spaces before and after an expression do not change the answer
    of [calculator]. *)
Theorem calculator_ignores_outer_spaces (n m : nat) (s : string) :
  calculator (VStr (spaces n +:+ s +:+ spaces m)) = calculator (VStr s).
Proof.
  rewrite !calculator_string, !string_forall_app, !string_forall_spaces.
  rewrite andb_true_r. cbn [andb].
  unfold py_eval. now rewrite tokenize_leading_spaces, tokenize_trailing_spaces.
Qed.







End CalculatorMore.

(** ** Decimal numerals *)

Section Numerals.

Context {P : Platform}.











End Numerals.

(** ** More on the relay *)

Section RelayMore.

Context {P : Platform}.

Lemma unwrap_kind request tools (r : response inexact) e :
  unwrap request tools r = Raise e -> chat_error_kind e <> None.
Proof.
  intros He. destruct (is_success r) eqn:Hr.
  - destruct (reply_text r) as [s | ] eqn:Hs.
    + rewrite (unwrap_reply _ _ _ _ Hr Hs) in He. discriminate.
    + destruct (unwrap_malformed request tools r Hr Hs) as (e' & He' & Hk).
      rewrite He in He'. injection He' as <-. now rewrite Hk.
  - rewrite (unwrap_status _ _ _ Hr) in He. injection He as <-. discriminate.
Qed.

(** X8: [chat] either returns a response or raises [HTTPException] with
    status 500; no exception of its [try] block gets past the two
    [except] clauses. *)
Theorem chat_raises_only_500 (request : ChatRequest) (w : World) :
  (exists resp, fst (chat request w) = Ret resp) \/
  (exists detail, fst (chat request w) = Raise (HTTPException 500 detail)).
Proof.
  rewrite chat_run. cbn [fst].
  destruct (fst (chat_body request w)) as [resp | e] eqn:Hbody.
  - left. now exists resp.
  - right. rewrite chat_body_run in Hbody. cbn [fst] in Hbody.
    assert (Hk : chat_error_kind e <> None).
    { destruct (downstream w (sent w) (relay_call (TOOLS w) request))
        as [r | msg].
      - now apply (unwrap_kind request (TOOLS w) r).
      - injection Hbody as <-. discriminate. }
    destruct (chat_error_kind e) as [[] | ]; try (now destruct Hk); eauto.
Qed.

(** X9: [chat] returns exactly when the server answers its call with a
    2xx response whose JSON has a string at
    [choices[0].message.content]; the response is then made of that
    string, no [toolsUsed], and the debug object if asked for. *)
Theorem chat_returns_iff (request : ChatRequest) (w : World) resp :
  fst (chat request w) = Ret resp <->
  exists r s,
    downstream w (sent w) (relay_call (TOOLS w) request) = Responded r /\
    is_success r = true /\
    reply_text r = Some s /\
    resp = {| message := s;
              toolsUsed := None;
              debug :=
                if bool_decide (userId request = Some "debug")
                then Some (VDict [("model", VStr DEFAULT_MODEL);
                                  ("tools_available",
                                   VInt (Z.of_nat (List.length (TOOLS w))))])
                else None |}.
Proof.
  rewrite chat_run, chat_body_run. cbn [fst]. split.
  - destruct (downstream w (sent w) (relay_call (TOOLS w) request))
      as [r | msg]; [ | discriminate ].
    destruct (unwrap request (TOOLS w) r) as [resp' | e] eqn:Hu.
    + intros [= ->]. destruct (is_success r) eqn:Hr.
      * destruct (reply_text r) as [s | ] eqn:Hs.
        -- exists r, s. rewrite (unwrap_reply _ _ _ _ Hr Hs) in Hu.
           injection Hu as <-. repeat split; assumption.
        -- destruct (unwrap_malformed request (TOOLS w) r Hr Hs)
             as (e & He & _). congruence.
      * rewrite (unwrap_status _ _ _ Hr) in Hu. discriminate.
    + destruct (chat_error_kind e) as [[] | ]; discriminate.
  - intros (r & s & -> & Hr & Hs & ->).
    now rewrite (unwrap_reply _ _ _ _ Hr Hs).
Qed.

(** X10: the [conversationId] of a request has no bearing on what [chat]
    sends, returns or raises. *)
Theorem chat_ignores_conversationId (request : ChatRequest) (id : string)
    (w : World) :
  chat {| messages := messages request;
          conversationId := id;
          userId := userId request |} w
  = chat request w.
Proof. rewrite !chat_run, !chat_body_run. reflexivity. Qed.

(** X11: [call_llm_with_tools] makes one call to the configured URL; the
    payload has the tools and the tool choice only when [include_tools]
    holds.  It returns the JSON body of a 2xx response as it is, whatever
    its shape, and raises the transport error, the status error of a
    response that is not 2xx, or the decoding error of a body that is not
    JSON. *)
Theorem call_llm_with_tools_run (messages : list (value inexact))
    (include_tools : bool) (w : World) :
  let c := (LLM_SERVER_URL, llm_payload (TOOLS w) messages include_tools) in
  call_llm_with_tools messages include_tools w
  = (match downstream w (sent w) c with
     | TransportFailed msg => Raise (PyExn TransportError msg)
     | Responded r =>
         if is_success r then
           match body r with
           | ValidJson v => Ret v
           | InvalidJson msg => Raise (PyExn ValueError msg)
           end
         else Raise (PyExn HTTPStatusError (wording (BadStatus r)))
     end,
     with_sent c w).
Proof.
  cbv zeta. unfold call_llm_with_tools, llm_payload, mbind_M, read, ret, lift, post.
  destruct include_tools;
    cbn [dict_set String.eqb Ascii.eqb Bool.eqb app];
    (match goal with
     | |- context [downstream w (sent w) ?c] =>
         destruct (downstream w (sent w) c) as [r | msg]
     end; [ | reflexivity ]);
    unfold raise_for_status, json;
    destruct (is_success r); [ destruct (body r) | | destruct (body r) | ];
    reflexivity.
Qed.

End RelayMore.

(** ** More on the direct invoker and on what the endpoints touch *)

Section InvokerMore.

Context {P : Platform}.

Lemma reachable_table (w : World) name :
  reachable w ->
  TOOL_FUNCTIONS w !! name
  = if String.eqb name "calculator" then Some fn_calculator
    else if String.eqb name "get_current_datetime"
         then Some fn_get_current_datetime
         else None.
Proof.
  intros Hw. destruct (reachable_objects w Hw) as [_ ->].
  unfold TOOL_FUNCTIONS_at_start.
  destruct (String.eqb_spec name "calculator") as [-> | Hc];
    [reflexivity | ].
  rewrite lookup_insert_ne by congruence.
  destruct (String.eqb_spec name "get_current_datetime") as [-> | Hd];
    [reflexivity | ].
  rewrite lookup_insert_ne by congruence. apply lookup_empty.
Qed.

(** X12: [execute_tool] on ["get_current_datetime"] returns the clock
    reading under ["datetime"] when it is given no parameter, and raises
    [HTTPException(400)] on the first parameter when it is given any. *)
Theorem execute_tool_datetime (parameters : list (string * value inexact))
    (w : World) :
  reachable w ->
  execute_tool "get_current_datetime" parameters w
  = match parameters with
    | [] =>
        (Ret (VDict [("tool", VStr "get_current_datetime");
                     ("result", VDict [("datetime", VStr (now w))])]),
         with_ran "get_current_datetime" w)
    | (k, _) :: _ =>
        (Raise (HTTPException 400
                  (wording (UnexpectedKeyword "get_current_datetime" k))), w)
    end.
Proof.
  intros Hw.
  rewrite (execute_tool_known _ _ _ fn_get_current_datetime)
    by now rewrite reachable_table.
  destruct parameters as [ | [k v] parameters].
  - reflexivity.
  - unfold call_tool, unexpected_keyword.
    cbn [fmap list_fmap fst]. rewrite filter_cons.
    destruct (decide (k ∉ [])) as [_ | Hk];
      [ | destruct Hk; apply not_elem_of_nil ].
    cbn [head lift throw isinstance_Exception failure_class is_Exception].
    reflexivity.
Qed.

(** X13: given exactly the parameter ["expression"], whatever its value,
    [execute_tool] on ["calculator"] returns the answer of [calculator]
    under ["result"]: an expression that cannot be evaluated is reported
    in the answer, not as a 400.  A parameter under any other name makes
    it raise [HTTPException(400)]. *)
Theorem execute_tool_calculator (w : World) :
  reachable w ->
  (forall expression,
     exists answer,
       calculator expression = Ret answer /\
       execute_tool "calculator" [("expression", expression)] w
       = (Ret (VDict [("tool", VStr "calculator"); ("result", answer)]),
          with_ran "calculator" w)) /\
  (forall parameters k,
     unexpected_keyword ["expression"] parameters = Some k ->
     execute_tool "calculator" parameters w
     = (Raise (HTTPException 400 (wording (UnexpectedKeyword "calculator" k))),
        w)).
Proof.
  intros Hw. split.
  - intros expression. destruct (calculator_returns expression) as [d Hd].
    exists d. split; [exact Hd | ].
    rewrite (execute_tool_known _ _ _ fn_calculator)
      by now rewrite reachable_table.
    unfold call_tool, unexpected_keyword.
    cbn [fmap list_fmap fst]. rewrite filter_cons.
    destruct (decide ("expression" ∉ ["expression"])) as [Hk | _].
    + destruct Hk. apply list_elem_of_singleton. reflexivity.
    + rewrite filter_nil. cbn [head dict_get String.eqb Ascii.eqb Bool.eqb].
      unfold run_calculator, mbind_M, enter, lift. now rewrite Hd.
  - intros parameters k Hk.
    rewrite (execute_tool_known _ _ _ fn_calculator)
      by now rewrite reachable_table.
    unfold call_tool. rewrite Hk. reflexivity.
Qed.

(** X14: the endpoints keep apart.  [chat] runs no tool: it only adds its
    call to what was sent.  [execute_tool] and [health] send nothing
    downstream, and [execute_tool] runs at most one tool body. *)
Theorem endpoints_keep_apart (w : World) :
  (forall request,
     ran (snd (chat request w)) = ran w /\
     exists c, sent (snd (chat request w)) = sent w ++ [c]) /\
  (forall name parameters,
     sent (snd (execute_tool name parameters w)) = sent w /\
     (ran (snd (execute_tool name parameters w)) = ran w \/
      exists n, ran (snd (execute_tool name parameters w)) = ran w ++ [n])) /\
  snd (health w) = w.
Proof.
  split; [ | split ].
  - intros request. rewrite chat_world. split; [reflexivity | ].
    eexists. reflexivity.
  - intros name parameters.
    destruct (execute_tool_world name parameters w) as [-> | [f ->]].
    + split; [reflexivity | now left].
    + split; [reflexivity | right]. eexists. reflexivity.
  - reflexivity.
Qed.

(** X15: whatever requests the process has served, every call it has
    made went to the configured URL with the payload of some chat request
    and the catalog built at start-up, and every tool body it has run is
    one of the two in [TOOL_FUNCTIONS]. *)
Theorem reachable_traces (w : World) :
  reachable w ->
  (forall c, c ∈ sent w ->
     exists request, c = relay_call TOOLS_at_start request) /\
  (forall n, n ∈ ran w -> n ∈ dom TOOL_FUNCTIONS_at_start).
Proof.
  induction 1 as [server clock | w request Hw IH | w Hw IH
                 | w name parameters Hw IH | w server clock Hw IH].
  - split; intros x Hx; cbn in Hx; now apply elem_of_nil in Hx.
  - destruct IH as [IHs IHr]. rewrite chat_world. cbn [sent ran with_sent].
    split; [ | exact IHr ].
    intros c [Hc | Hc]%elem_of_app; [now apply IHs | ].
    apply list_elem_of_singleton in Hc as ->.
    destruct (reachable_objects w Hw) as [-> _]. now exists request.
  - exact IH.
  - destruct IH as [IHs IHr].
    destruct (execute_tool_world name parameters w) as [-> | [f ->]];
      [now split | ].
    cbn [sent ran with_ran]. split; [exact IHs | ].
    intros n [Hn | Hn]%elem_of_app; [now apply IHr | ].
    apply list_elem_of_singleton in Hn as ->.
    unfold TOOL_FUNCTIONS_at_start. rewrite !dom_insert_L.
    destruct f; cbn [name_of]; set_solver.
  - exact IH.
Qed.

(** X16: assigning to a key of a dictionary and reading it back gives
    what was assigned; the other keys keep their values, and the keys keep
    their order, a new key going last. *)
Theorem dict_set_get (d : list (string * value inexact)) k v :
  dict_get k (dict_set d k v) = Some v /\
  (forall k', k' <> k -> dict_get k' (dict_set d k v) = dict_get k' d) /\
  keys (dict_set d k v) = if bool_decide (k ∈ keys d) then keys d
                          else keys d ++ [k].
Proof.
  unfold keys. induction d as [ | [k0 v0] d (IHget & IHother & IHkeys)].
  - cbn [dict_set dict_get]. rewrite String.eqb_refl.
    split; [reflexivity | split; [ | reflexivity ] ].
    intros k' Hk'. now destruct (String.eqb_spec k' k).
  - cbn [dict_set]. destruct (String.eqb_spec k k0) as [<- | Hk].
    + cbn [dict_get fmap list_fmap fst]. rewrite String.eqb_refl.
      split; [reflexivity | split ].
      * intros k' Hk'. now destruct (String.eqb_spec k' k).
      * rewrite bool_decide_eq_true_2 by apply list_elem_of_here.
        reflexivity.
    + cbn [dict_get fmap list_fmap fst].
      destruct (String.eqb_spec k k0) as [Heq | _]; [contradiction | ].
      split; [exact IHget | split ].
      * intros k' Hk'. destruct (String.eqb k' k0); [reflexivity | ].
        now apply IHother.
      * rewrite IHkeys.
        destruct (bool_decide_reflect (k ∈ fst <$> d)) as [Hin | Hin].
        -- rewrite bool_decide_eq_true_2 by now apply list_elem_of_further.
           reflexivity.
        -- rewrite bool_decide_eq_false_2; [reflexivity | ].
           intros [Heq | Hin']%elem_of_cons; [contradiction | contradiction].
Qed.

End InvokerMore.

(** ** The test script *)

Section ScriptProperties.

Context {P : Platform}.




(** X19: the test script talks to the URL the server is configured
    with, and its payload has, key for key, the values of the payload
    that [chat] sends for the one user message of the script: same model,
    same sampling parameters, same catalog, same tool choice. *)
Theorem script_payload_matches_relay (id : string) (user : option string) :
  test_tools_script.url = LLM_SERVER_URL /\
  exists d1 d2,
    test_tools_script.payload = VDict d1 /\
    snd (relay_call TOOLS_at_start
           {| messages := [ {| role := "user";
                               content := "What's the current time?" |} ];
              conversationId := id;
              userId := user |}) = VDict d2 /\
    forall k, dict_get k d1 = dict_get k d2.
Proof.
  split; [reflexivity | ].
  eexists _, _. split; [reflexivity | split; [reflexivity | ] ].
  intros k. cbn [dict_get map messages role content].
  repeat match goal with
         | |- context [String.eqb k ?key] =>
             destruct (String.eqb_spec k key) as [-> | ?]
         end;
    reflexivity || congruence.
Qed.

End ScriptProperties.

(** ** The further statements at work *)

Lemma calculator_rejects_non_strings_witness :
  exists msg,
    @calculator symbolic_platform (VInt 5) = Ret (VDict [("error", VStr msg)]).
Proof.
  apply (@calculator_rejects_non_strings symbolic_platform (VInt 5)).
  discriminate.
Defined.




Lemma execute_tool_datetime_witness :
  @execute_tool symbolic_platform "get_current_datetime" [] healthy_world
  = (Ret (VDict [("tool", VStr "get_current_datetime");
                 ("result", VDict [("datetime", VStr "2025-01-01T00:00:00")])]),
     with_ran "get_current_datetime" healthy_world).
Proof.
  apply (@execute_tool_datetime symbolic_platform [] healthy_world).
  apply reachable_boot.
Defined.

Lemma execute_tool_calculator_witness :
  (exists answer,
     @calculator symbolic_platform (VStr "1/0") = Ret answer /\
     @execute_tool symbolic_platform "calculator"
       [("expression", VStr "1/0")] healthy_world
     = (Ret (VDict [("tool", VStr "calculator"); ("result", answer)]),
        with_ran "calculator" healthy_world)) /\
  @execute_tool symbolic_platform "calculator"
    [("expression", VStr "1"); ("precision", VInt 2)] healthy_world
  = (Raise (HTTPException 400 "TypeError"), healthy_world).
Proof.
  destruct (@execute_tool_calculator symbolic_platform healthy_world
              (reachable_boot _ _)) as [Hexpr Hother].
  split.
  - apply Hexpr.
  - apply (Hother [("expression", VStr "1"); ("precision", VInt 2)]
             "precision").
    reflexivity.
Defined.

Lemma reachable_traces_witness :
  (forall c,
     c ∈ sent (snd (@chat symbolic_platform (hi_request None) failing_world)) ->
     exists request, c = relay_call TOOLS_at_start request) /\
  (forall n,
     n ∈ ran (snd (@chat symbolic_platform (hi_request None) failing_world)) ->
     n ∈ dom TOOL_FUNCTIONS_at_start).
Proof.
  apply (@reachable_traces symbolic_platform).
  apply reachable_chat, reachable_boot.
Defined.

Lemma dict_set_get_witness :
  @dict_get symbolic_platform "model"
    (dict_set [("model", VStr "a"); ("tools", VList [])] "tools" (VInt 1))
  = Some (VStr "a").
Proof.
  destruct (@dict_set_get symbolic_platform
              [("model", VStr "a"); ("tools", VList [])] "tools" (VInt 1))
    as (_ & Hother & _).
  rewrite (Hother "model") by discriminate. reflexivity.
Defined.

